(** * pySwitchbot: a shallow embedding of [switchbot/__init__.py]

    The driver sends commands to Switchbot devices over BLE and decodes the
    state a curtain bot broadcasts.  The embedding follows the Python source:
    the Python built-ins it calls are modelled in [Py], the BLE peripheral is
    a scripted transport, and the methods of the three classes are state
    passing functions over records holding the instance attributes. *)

From Stdlib Require Import ZArith List Bool Lia.
From Stdlib.Strings Require Import String Ascii.
Import ListNotations.
Local Open Scope Z_scope.

(** ** Python built-ins used by the driver *)
Module Py.

(** The exception classes that can travel through the driver.
    [binascii_Error] is [binascii.Error]; [BTLEException] is
    [bluepy.btle.BTLEException], the only class the driver ever catches. *)
Inductive exn : Type :=
| AttributeError
| ValueError
| UnicodeEncodeError
| binascii_Error
| BTLEException.

Definition is_BTLEException (e : exn) : bool :=
  match e with BTLEException => true | _ => false end.

(** Outcome of evaluating an expression: a value or a raised exception. *)
Inductive result (A : Type) : Type :=
| Ok (a : A)
| Raise (e : exn).
Arguments Ok {A} a.
Arguments Raise {A} e.

(** Code point of a character of a [str]. *)
Definition ord (c : ascii) : Z := Z.of_N (N_of_ascii c).

(** A [bytes] or [bytearray] value: the list of its bytes, each in
    [0, 256). *)
Definition bytes : Type := list Z.

Definition ords (s : string) : bytes := map ord (list_ascii_of_string s).

Definition is_ascii (s : string) : bool :=
  forallb (fun c => c <? 128) (ords s).

(** [s.encode('ascii')] and [bytearray(s, 'ascii')]. *)
Definition encode_ascii (s : string) : result bytes :=
  if is_ascii s then Ok (ords s) else Raise UnicodeEncodeError.

(** [str.lower()].  A character stands for its code point, which the type
    keeps below 256.  On that range the cased characters with a lower case
    form of their own are A to Z and the capital letters U+00C0 to U+00DE,
    the multiplication sign U+00D7 apart; each maps to the code point 32
    above. *)
Definition lower_char (c : ascii) : ascii :=
  if ((65 <=? ord c) && (ord c <=? 90))
     || ((192 <=? ord c) && (ord c <=? 222) && negb (ord c =? 215))
  then ascii_of_N (N_of_ascii c + 32) else c.

Fixpoint lower (s : string) : string :=
  match s with
  | EmptyString => EmptyString
  | String c r => String (lower_char c) (lower r)
  end.

(** Sequence slicing [l[start:stop]] with step 1: a negative bound counts
    from the end, and both bounds are clamped to [0, len]. *)
Definition adjust_index (len i : Z) : Z :=
  if i <? 0 then Z.max (i + len) 0 else Z.min i len.

Definition slice {A : Type} (l : list A) (start stop : option Z) : list A :=
  let len := Z.of_nat (List.length l) in
  let a := match start with Some i => adjust_index len i | None => 0 end in
  let b := match stop with Some j => adjust_index len j | None => len end in
  firstn (Z.to_nat (b - a)) (skipn (Z.to_nat a) l).

(** CPython's digit table: the value of a character as a digit, 37 when it
    is none. *)
Definition _PyLong_DigitValue (c : Z) : Z :=
  if (48 <=? c) && (c <=? 57) then c - 48
  else if (97 <=? c) && (c <=? 122) then c - 87
  else if (65 <=? c) && (c <=? 90) then c - 55
  else 37.

Definition Py_ISSPACE (c : Z) : bool :=
  (c =? 32) || ((9 <=? c) && (c <=? 13)).

Fixpoint skip_space (s : bytes) : bytes :=
  match s with
  | c :: r => if Py_ISSPACE (c) then skip_space r else s
  | [] => []
  end.

(** Digit scan of [int(x, 16)]: hexadecimal digits, single underscores
    allowed between them.  Returns the value, the number of digits read and
    the unread rest; [None] on a doubled or trailing underscore. *)
Fixpoint scan_digits (prev_underscore : bool) (acc : Z) (n : nat)
         (s : bytes) : option (Z * nat * bytes) :=
  match s with
  | c :: r =>
      if c =? 95 then
        if prev_underscore then None else scan_digits true acc n r
      else if _PyLong_DigitValue (c) <? 16 then
        scan_digits false (acc * 16 + _PyLong_DigitValue (c)) (S n) r
      else if prev_underscore then None else Some (acc, n, s)
  | [] => if prev_underscore then None else Some (acc, n, [])
  end.

(** [int(x, 16)] on a bytes-like [x]: optional surrounding whitespace, an
    optional sign, an optional [0x]/[0X] prefix, then at least one digit. *)
Definition PyLong_FromString16 (x : bytes) : option Z :=
  let s := skip_space x in
  let '(sign, s) :=
    match s with
    | c :: r => if c =? 43 then (1, r)
                else if c =? 45 then (-1, r) else (1, s)
    | [] => (1, s)
    end in
  let s :=
    match s with
    | c0 :: c1 :: r =>
        if (c0 =? 48) && ((c1 =? 120) || (c1 =? 88))
        then match r with
             | u :: r' => if u =? 95 then r' else r
             | [] => r
             end
        else s
    | _ => s
    end in
  match s with
  | c :: _ => if c =? 95 then None else
      match scan_digits false 0 0%nat s with
      | Some (v, S _, rest) =>
          match skip_space rest with [] => Some (sign * v) | _ => None end
      | _ => None
      end
  | [] => None
  end.

Definition int16 (x : bytes) : result Z :=
  match PyLong_FromString16 x with
  | Some z => Ok z
  | None => Raise ValueError
  end.

(** *** [%]-formatting of integers *)

Definition hex_digit (upper : bool) (d : Z) : ascii :=
  if d <? 10 then ascii_of_N (Z.to_N (48 + d))
  else ascii_of_N (Z.to_N ((if upper then 55 else 87) + d)).

(** Digits of a non-negative [n] in base 16, most significant first.  The
    recursion is on [gas]; [hex_digits] supplies enough of it. *)
Fixpoint hex_digits_rec (gas : nat) (upper : bool) (n : Z) (acc : string)
  : string :=
  match gas with
  | O => acc
  | S g =>
      let acc' := String (hex_digit upper (n mod 16)) acc in
      if n <? 16 then acc' else hex_digits_rec g upper (n / 16) acc'
  end.

Definition hex_digits (upper : bool) (n : Z) : string :=
  hex_digits_rec (S (Z.to_nat (Z.log2 n))) upper n EmptyString.

Fixpoint zeros (k : nat) : string :=
  match k with O => EmptyString | S k' => String "0" (zeros k') end.

(** A precision [.p] on an integer conversion asks for at least [p]
    digits. *)
Definition pad_digits (p : nat) (ds : string) : string :=
  (zeros (p - String.length ds) ++ ds)%string.

Definition sign_of (n : Z) : string :=
  if n <? 0 then "-"%string else EmptyString.

(** ['%x' % n] *)
Definition format_x (n : Z) : string :=
  (sign_of n ++ hex_digits false (Z.abs n))%string.

(** ['%0.2X' % n] *)
Definition format_02X (n : Z) : string :=
  (sign_of n ++ pad_digits 2 (hex_digits true (Z.abs n)))%string.

(** *** [binascii] *)

(** One entry of the CRC-32 table: eight shift steps with the reflected
    polynomial [0xEDB88320]. *)
Definition crc_shift (c : Z) : Z :=
  if Z.testbit c 0 then Z.lxor (Z.shiftr c 1) 0xEDB88320 else Z.shiftr c 1.

Definition crc_32_tab (i : Z) : Z :=
  crc_shift (crc_shift (crc_shift (crc_shift
    (crc_shift (crc_shift (crc_shift (crc_shift i))))))).

Definition crc32_update (crc b : Z) : Z :=
  Z.lxor (crc_32_tab (Z.land (Z.lxor crc b) 0xff)) (Z.shiftr crc 8).

(** [binascii.crc32(data)], starting from the default value 0. *)
Definition crc32 (data : bytes) : Z :=
  Z.lxor (fold_left crc32_update data 0xFFFFFFFF) 0xFFFFFFFF.

(** [binascii.a2b_hex(hexstr)] on a [str]: the string must be ASCII, of
    even length, and made of hexadecimal digits. *)
Fixpoint unhexlify (s : bytes) : option bytes :=
  match s with
  | [] => Some []
  | top :: bot :: r =>
      if (_PyLong_DigitValue top <? 16) && (_PyLong_DigitValue bot <? 16)
      then option_map
             (cons (_PyLong_DigitValue top * 16 + _PyLong_DigitValue bot))
             (unhexlify r)
      else None
  | [_] => None
  end.

Definition a2b_hex (hexstr : string) : result bytes :=
  if negb (is_ascii hexstr) then Raise ValueError
  else if Nat.odd (String.length hexstr) then Raise binascii_Error
  else match unhexlify (ords hexstr) with
       | Some b => Ok b
       | None => Raise binascii_Error
       end.

End Py.
Import Py.

(** ** Protocol constants *)

Definition DEFAULT_RETRY_COUNT : Z := 3.

Definition KEY_PASSWORD_PREFIX : string := "5711".

Definition PRESS_KEY : string := "570100".
Definition ON_KEY : string := "570101".
Definition OFF_KEY : string := "570102".

Definition OPEN_KEY : string := "570f450105ff00".
Definition CLOSE_KEY : string := "570f450105ff64".
Definition POSITION_KEY : string := "570F450105ff".
Definition STOP_KEY : string := "570F450100ff".

Definition ON_KEY_SUFFIX : string := "01".
Definition OFF_KEY_SUFFIX : string := "02".
Definition PRESS_KEY_SUFFIX : string := "00".

(** ** The BLE peripheral

    [bluepy] is outside the driver.  One send attempt calls the peripheral at
    most once for each of: opening the connection, looking up the
    characteristic, writing, disconnecting.  A transport is therefore a
    script giving, for the k-th attempt, how each of the four calls ends; a
    call that fails raises [BTLEException].  The calls actually made are
    recorded in a trace, oldest first. *)

Inductive write_outcome : Type :=
| WriteAck      (* [write] returns a true value *)
| WriteNoAck    (* [write] returns a false value *)
| WriteRaises.  (* [write] raises [BTLEException] *)

Record attempt : Type := {
  connect_ok : bool;
  lookup_ok : bool;
  write_res : write_outcome;
  disconnect_ok : bool
}.

Definition transport : Type := nat -> attempt.

Inductive event : Type :=
| EvConnect (ok : bool)
| EvLookup (ok : bool)
| EvWrite (data : bytes) (res : write_outcome)
| EvDisconnect (ok : bool)
| EvSleep.

Record world : Type := {
  attempt_no : nat;
  trace : list event
}.

(** A connection handle, tagged with the attempt that opened it. *)
Definition Peripheral : Type := nat.

(** ** Instance attributes *)

Record SwitchbotDevice : Type := {
  _interface : option Z;
  _mac : string;
  _device : option Peripheral;
  _retry_count : Z;
  _password_encoded : option string
}.

Record SwitchbotCurtain : Type := {
  base : SwitchbotDevice;
  _reverse : bool;
  _pos : Z;
  _light_level : Z;
  _battery_percent : Z
}.

Definition with_device (d : option Peripheral) (self : SwitchbotDevice)
  : SwitchbotDevice :=
  {| _interface := _interface self; _mac := _mac self; _device := d;
     _retry_count := _retry_count self;
     _password_encoded := _password_encoded self |}.

Definition with_base (b : SwitchbotDevice) (self : SwitchbotCurtain)
  : SwitchbotCurtain :=
  {| base := b; _reverse := _reverse self; _pos := _pos self;
     _light_level := _light_level self;
     _battery_percent := _battery_percent self |}.

Definition with_pos (p : Z) (self : SwitchbotCurtain) : SwitchbotCurtain :=
  {| base := base self; _reverse := _reverse self; _pos := p;
     _light_level := _light_level self;
     _battery_percent := _battery_percent self |}.

Definition with_light_level (l : Z) (self : SwitchbotCurtain)
  : SwitchbotCurtain :=
  {| base := base self; _reverse := _reverse self; _pos := _pos self;
     _light_level := l; _battery_percent := _battery_percent self |}.

Definition with_battery_percent (b : Z) (self : SwitchbotCurtain)
  : SwitchbotCurtain :=
  {| base := base self; _reverse := _reverse self; _pos := _pos self;
     _light_level := _light_level self; _battery_percent := b |}.

(** ** Statements with state and exceptions

    A method body is a function from the state before to the outcome and the
    state after; a raised exception keeps the mutations made so far. *)

Definition M (S A : Type) : Type := S -> result A * S.

Definition ret {S A} (a : A) : M S A := fun s => (Ok a, s).

Definition raise {S A} (e : exn) : M S A := fun s => (Raise e, s).

Definition bind {S A B} (m : M S A) (k : A -> M S B) : M S B :=
  fun s => match m s with
           | (Ok a, s') => k a s'
           | (Raise e, s') => (Raise e, s')
           end.

Definition get {S} : M S S := fun s => (Ok s, s).

Definition modify {S} (f : S -> S) : M S unit := fun s => (Ok tt, f s).

(** [try: body  except cls: handler] *)
Definition try_except {S A} (body : M S A) (cls : exn -> bool)
           (handler : M S A) : M S A :=
  fun s => match body s with
           | (Raise e, s') => if cls e then handler s' else (Raise e, s')
           | ok => ok
           end.

(** [try: body  finally: cleanup] *)
Definition try_finally {S A} (body : M S A) (cleanup : M S unit) : M S A :=
  fun s => let '(r, s1) := body s in
           match cleanup s1 with
           | (Ok _, s2) => (r, s2)
           | (Raise e, s2) => (Raise e, s2)
           end.

Declare Scope py_scope.
Delimit Scope py_scope with py.
Notation "x <- m ;; k" := (bind m (fun x => k))
  (at level 61, m at next level, right associativity) : py_scope.
Notation "m ;; k" := (bind m (fun _ => k))
  (at level 61, right associativity) : py_scope.
Local Open Scope py_scope.

(** ** class SwitchbotDevice *)

(** [SwitchbotDevice.__init__(mac, retry_count, password, interface)];
    [password] is [None] or a [str]. *)
Definition SwitchbotDevice__init__ (mac : string) (retry_count : Z)
           (password : option string) (interface : option Z)
  : result SwitchbotDevice :=
  let new pw :=
    {| _interface := interface; _mac := mac; _device := None;
       _retry_count := retry_count; _password_encoded := pw |} in
  match password with
  | None => Ok (new None)
  | Some p =>
      if String.eqb p "" then Ok (new None)
      else match encode_ascii p with
           | Ok data =>
               Ok (new (Some (format_x (Z.land (crc32 data) 0xffffffff))))
           | Raise e => Raise e
           end
  end.

Definition _commandkey (self : SwitchbotDevice) (key : string) : string :=
  match _password_encoded self with
  | None => key
  | Some password_encoded =>
      let key_suffix :=
        if String.eqb key ON_KEY then ON_KEY_SUFFIX
        else if String.eqb key OFF_KEY then OFF_KEY_SUFFIX
        else PRESS_KEY_SUFFIX in
      (KEY_PASSWORD_PREFIX ++ password_encoded ++ key_suffix)%string
  end.

Definition get_mac (self : SwitchbotDevice) : string := _mac self.

(** The state a device method runs in: the instance and the peripheral's
    world. *)
Record St : Type := { self_ : SwitchbotDevice; env : world }.

Definition set_device (d : option Peripheral) : M St unit :=
  modify (fun s => {| self_ := with_device d (self_ s); env := env s |}).

Definition emit (e : event) : M St unit :=
  modify (fun s =>
    {| self_ := self_ s;
       env := {| attempt_no := attempt_no (env s);
                 trace := (trace (env s) ++ [e])%list |} |}).

(** The script moves on to its next entry. *)
Definition next_attempt : M St unit :=
  modify (fun s =>
    {| self_ := self_ s;
       env := {| attempt_no := S (attempt_no (env s));
                 trace := trace (env s) |} |}).

(** [time.sleep(DEFAULT_RETRY_TIMEOUT)] *)
Definition sleep : M St unit := emit EvSleep.

Section Transport.

Variable T : transport.

(** The script entry of the running attempt. *)
Definition script : M St attempt :=
  fun s => (Ok (T (attempt_no (env s))), s).

Definition _connect : M St unit :=
  s <- get ;;
  match _device (self_ s) with
  | Some _ => ret tt
  | None =>
      try_except
        (b <- script ;;
         emit (EvConnect (connect_ok b)) ;;
         if connect_ok b
         then set_device (Some (attempt_no (env s)))
         else raise BTLEException)
        is_BTLEException
        (set_device None ;; raise BTLEException)
  end.

Definition _disconnect : M St unit :=
  s <- get ;;
  match _device (self_ s) with
  | None => ret tt
  | Some _ =>
      try_finally
        (try_except
           (b <- script ;;
            emit (EvDisconnect (disconnect_ok b)) ;;
            if disconnect_ok b then ret tt else raise BTLEException)
           is_BTLEException
           (ret tt))
        (set_device None)
  end.

Definition _writekey (key : string) : M St bool :=
  s <- get ;;
  match _device (self_ s) with
  | None => raise AttributeError
  | Some _ =>
      b <- script ;;
      emit (EvLookup (lookup_ok b)) ;;
      if lookup_ok b then
        match a2b_hex key with
        | Ok data =>
            emit (EvWrite data (write_res b)) ;;
            match write_res b with
            | WriteAck => ret true
            | WriteNoAck => ret false
            | WriteRaises => raise BTLEException
            end
        | Raise e => raise e
        end
      else raise BTLEException
  end.

(** One pass through the [try] statement of [_sendcommand]: the value of
    [send_success] when the statement is left normally. *)
Definition send_once (command : string) : M St bool :=
  try_finally
    (try_except (_connect ;; _writekey command)
                is_BTLEException
                (ret false))
    (_disconnect ;; next_attempt).

(** The body of [_sendcommand], with the call to itself as [self_call]. *)
Definition _sendcommand_body (self_call : string -> Z -> M St bool)
           (key : string) (retry : Z) : M St bool :=
  s <- get ;;
  let command := _commandkey (self_ s) key in
  send_success <- send_once command ;;
  if send_success then ret true
  else if retry <? 1 then ret false
  else sleep ;; self_call key (retry - 1).

(** [_sendcommand] calls itself with [retry - 1] only while [retry >= 1]:
    the recursion is on [gas], of which [_sendcommand] supplies [retry]. *)
Fixpoint _sendcommand_rec (gas : nat) (key : string) (retry : Z)
  : M St bool :=
  _sendcommand_body
    (fun key' retry' =>
       match gas with
       | O => ret false
       | S g => _sendcommand_rec g key' retry'
       end)
    key retry.

Definition _sendcommand (key : string) (retry : Z) : M St bool :=
  _sendcommand_rec (Z.to_nat retry) key retry.

(** ** class Switchbot *)

Definition turn_on : M St bool :=
  s <- get ;; _sendcommand ON_KEY (_retry_count (self_ s)).

Definition turn_off : M St bool :=
  s <- get ;; _sendcommand OFF_KEY (_retry_count (self_ s)).

Definition press : M St bool :=
  s <- get ;; _sendcommand PRESS_KEY (_retry_count (self_ s)).

(** ** class SwitchbotCurtain *)

Record CSt : Type := { cself : SwitchbotCurtain; cenv : world }.

(** A method of the base class run on a curtain instance. *)
Definition inherited {A} (m : M St A) : M CSt A :=
  fun c =>
    let '(r, s) := m {| self_ := base (cself c); env := cenv c |} in
    (r, {| cself := with_base (self_ s) (cself c); cenv := env s |}).

Definition set_pos (p : Z) : M CSt unit :=
  modify (fun c => {| cself := with_pos p (cself c); cenv := cenv c |}).

Definition open : M CSt bool :=
  c <- get ;;
  set_pos (if _reverse (cself c) then 100 else 0) ;;
  inherited (s <- get ;; _sendcommand OPEN_KEY (_retry_count (self_ s))).

Definition close : M CSt bool :=
  c <- get ;;
  set_pos (if _reverse (cself c) then 0 else 100) ;;
  inherited (s <- get ;; _sendcommand CLOSE_KEY (_retry_count (self_ s))).

Definition stop : M CSt bool :=
  inherited (s <- get ;; _sendcommand STOP_KEY (_retry_count (self_ s))).

Definition set_position (position : Z) : M CSt bool :=
  c <- get ;;
  let position := if _reverse (cself c) then 100 - position else position in
  set_pos position ;;
  let hex_position := format_02X position in
  inherited (s <- get ;;
             _sendcommand (POSITION_KEY ++ hex_position)%string
                          (_retry_count (self_ s))).

End Transport.

(** [SwitchbotCurtain.__init__]: the keyword [reverse_mode] (default
    [False]) is taken out, the other arguments go to the base class. *)
Definition SwitchbotCurtain__init__ (mac : string) (retry_count : Z)
           (password : option string) (interface : option Z)
           (reverse_mode : bool) : result SwitchbotCurtain :=
  match SwitchbotDevice__init__ mac retry_count password interface with
  | Ok b =>
      Ok {| base := b; _reverse := reverse_mode; _pos := 0;
            _light_level := 0; _battery_percent := 0 |}
  | Raise e => Raise e
  end.

Definition get_position (self : SwitchbotCurtain) : Z := _pos self.
Definition get_battery_percent (self : SwitchbotCurtain) : Z :=
  _battery_percent self.
Definition get_light_level (self : SwitchbotCurtain) : Z := _light_level self.
Definition is_reversed (self : SwitchbotCurtain) : bool := _reverse self.

(** ** class ScanSwitchBotNotificationDelegate

    The delegate keeps a reference to the curtain object, so its assignments
    are assignments to the curtain's attributes: the state of
    [handleDiscovery] is the curtain itself. *)

(** A [bluepy] scan entry: the advertiser's address and the
    [(adtype, desc, value)] triples of [getScanData()]. *)
Record ScanEntry : Type := {
  addr : string;
  getScanData : list (Z * string * string)
}.

(** The body of [if adtype == 22]. *)
Definition decode_into (value : string) : M SwitchbotCurtain unit :=
  match encode_ascii value with
  | Raise e => raise e
  | Ok barray =>
      match int16 (slice barray (Some (-6)) (Some (-4))) with
      | Raise e => raise e
      | Ok b =>
          modify (with_battery_percent b) ;;
          match int16 (slice barray (Some (-4)) (Some (-2))) with
          | Raise e => raise e
          | Ok p =>
              modify (with_pos p) ;;
              match int16 (slice barray (Some (-2)) None) with
              | Raise e => raise e
              | Ok l => modify (with_light_level l)
              end
          end
      end
  end.

Fixpoint for_scan_data (data : list (Z * string * string))
  : M SwitchbotCurtain unit :=
  match data with
  | [] => ret tt
  | (adtype, desc, value) :: rest =>
      if adtype =? 22 then decode_into value ;; for_scan_data rest
      else for_scan_data rest
  end.

Definition handleDiscovery (dev : ScanEntry) (isNewDev isNewData : bool)
  : M SwitchbotCurtain unit :=
  driver <- get ;;
  if String.eqb (lower (get_mac (base driver))) (lower (addr dev))
  then for_scan_data (getScanData dev)
  else ret tt.

(** [SwitchbotCurtain.update(scan_timeout)]: the scanner hands every entry it
    hears during the scan to the delegate, and neither it nor [update] has an
    exception handler around the call.  [heard] is what the scan hears, each
    entry with the two flags the scanner passes along. *)
Fixpoint update (heard : list (ScanEntry * bool * bool))
  : M SwitchbotCurtain unit :=
  match heard with
  | [] => ret tt
  | (dev, isNewDev, isNewData) :: rest =>
      handleDiscovery dev isNewDev isNewData ;; update rest
  end.

(** ** Reading traces *)

Definition is_connect (e : event) : bool :=
  match e with EvConnect _ => true | _ => false end.

Definition is_opened (e : event) : bool :=
  match e with EvConnect true => true | _ => false end.

Definition is_write (e : event) : bool :=
  match e with EvWrite _ _ => true | _ => false end.

Definition is_disconnect (e : event) : bool :=
  match e with EvDisconnect _ => true | _ => false end.

Definition is_sleep (e : event) : bool :=
  match e with EvSleep => true | _ => false end.

Definition count (f : event -> bool) (tr : list event) : nat :=
  List.length (filter f tr).

(** [new] is what a run from [s] to [s'] added to the trace. *)
Definition added (s s' : St) (new : list event) : Prop :=
  trace (env s') = (trace (env s) ++ new)%list.

(** The peripheral accepts the connection and the lookup but the write is
    not acknowledged (it returns a false value or raises). *)
Definition write_fails (a : attempt) : Prop :=
  connect_ok a = true /\ lookup_ok a = true /\ write_res a <> WriteAck.

Definition write_succeeds (a : attempt) : Prop :=
  connect_ok a = true /\ lookup_ok a = true /\ write_res a = WriteAck.

(** The events of one attempt in which connection and lookup succeed and
    [data] is written. *)
Definition round (T : transport) (data : bytes) (n : nat) : list event :=
  [EvConnect true; EvLookup true; EvWrite data (write_res (T n));
   EvDisconnect (disconnect_ok (T n))].

(** [k] such attempts from attempt [n] on, each followed by the pause. *)
Fixpoint rounds (T : transport) (data : bytes) (n k : nat) : list event :=
  match k with
  | O => []
  | S k' => (round T data n ++ EvSleep :: rounds T data (S n) k')%list
  end.

(** The state [k] attempts later, with [evs] added to the trace and the
    connection handle dropped. *)
Definition later (s : St) (k : nat) (evs : list event) : St :=
  {| self_ := with_device None (self_ s);
     env := {| attempt_no := (attempt_no (env s) + k)%nat;
               trace := (trace (env s) ++ evs)%list |} |}.

Definition acknowledged (w : write_outcome) : bool :=
  match w with WriteAck => true | _ => false end.

(** Whether the instance holds a connection when a run starts. *)
Definition initially_open (s : St) : nat :=
  match _device (self_ s) with Some _ => 1%nat | None => 0%nat end.

(** A run from [s] that ended in [s'] with outcome [r] released the
    connection: no handle is stored any more, no [BTLEException] reaches the
    caller, and the run disconnected once for every connection it opened or
    found open. *)
Definition released (s : St) (r : result bool) (s' : St) : Prop :=
  _device (self_ s') = None
  /\ r <> Raise BTLEException
  /\ exists new,
       added s s' new
       /\ count is_disconnect new
          = (count is_opened new + initially_open s)%nat.

(** ** The logical commands and the key each facade method sends *)

Inductive Command : Type :=
| Press
| TurnOn
| TurnOff
| CurtainOpen
| CurtainClose
| CurtainStop
| CurtainSetPosition (device_position : Z).

(** The [key] argument of the [_sendcommand] call in [press], [turn_on],
    [turn_off], [open], [close], [stop] and [set_position]. *)
Definition opcode (c : Command) : string :=
  match c with
  | Press => PRESS_KEY
  | TurnOn => ON_KEY
  | TurnOff => OFF_KEY
  | CurtainOpen => OPEN_KEY
  | CurtainClose => CLOSE_KEY
  | CurtainStop => STOP_KEY
  | CurtainSetPosition p => (POSITION_KEY ++ format_02X p)%string
  end.

Definition suffix (c : Command) : string :=
  match c with
  | TurnOn => "01"
  | TurnOff => "02"
  | _ => "00"
  end.

(** ** Words of the specification *)

Definition is_hex_char (c : Z) : bool :=
  ((48 <=? c) && (c <=? 57)) || ((97 <=? c) && (c <=? 102))
  || ((65 <=? c) && (c <=? 70)).

Definition hex_char_value (c : Z) : Z :=
  if c <=? 57 then c - 48 else if c <=? 70 then c - 55 else c - 87.

(** A two character hexadecimal pair. *)
Definition valid_pair (p : bytes) : bool :=
  match p with
  | [h; l] => is_hex_char h && is_hex_char l
  | _ => false
  end.

(** A type-22 buffer is malformed when it has fewer than six characters or
    one of its three trailing pairs is not valid hexadecimal. *)
Definition malformed (barray : bytes) : bool :=
  (Z.of_nat (List.length barray) <? 6)
  || negb (valid_pair (slice barray (Some (-6)) (Some (-4)))
           && valid_pair (slice barray (Some (-4)) (Some (-2)))
           && valid_pair (slice barray (Some (-2)) None)).

(** A frame is discarded silently when handling it ends normally and leaves
    the curtain as it was. *)
Definition discarded_silently (dev : ScanEntry) (driver : SwitchbotCurtain)
  : Prop :=
  forall isNewDev isNewData,
    handleDiscovery dev isNewDev isNewData driver = (Ok tt, driver).

(** Lowercase hexadecimal without padding: digits [0-9a-f] only, no leading
    zero except for the number zero itself, and the digits denote [n]. *)
Definition is_lower_hex_char (c : Z) : bool :=
  ((48 <=? c) && (c <=? 57)) || ((97 <=? c) && (c <=? 102)).

Definition hex_value (s : string) : Z :=
  fold_left (fun v c => v * 16 + hex_char_value c) (ords s) 0.

Definition lower_hex_unpadded (n : Z) (s : string) : Prop :=
  forallb is_lower_hex_char (ords s) = true
  /\ hex_value s = n
  /\ (s = "0"%string \/ exists c r, s = String c r /\ c <> "0"%char).

(** ** Sample inputs *)

Definition sample_device : SwitchbotDevice :=
  {| _interface := None; _mac := "e7:4d:36:cf:9e:7a"; _device := None;
     _retry_count := DEFAULT_RETRY_COUNT; _password_encoded := None |}.

(** The same device after construction with the password ["123456789"]. *)
Definition sample_locked_device : SwitchbotDevice :=
  {| _interface := None; _mac := "e7:4d:36:cf:9e:7a"; _device := None;
     _retry_count := DEFAULT_RETRY_COUNT;
     _password_encoded := Some "cbf43926"%string |}.

Definition sample_curtain (reverse : bool) : SwitchbotCurtain :=
  {| base := sample_device; _reverse := reverse; _pos := 0;
     _light_level := 0; _battery_percent := 0 |}.

Definition fresh_world : world := {| attempt_no := 0; trace := [] |}.

(** A peripheral whose write goes unacknowledged twice and then succeeds;
    its second disconnect fails. *)
Definition flaky_twice : transport :=
  fun i => {| connect_ok := true; lookup_ok := true;
              write_res := if (i <? 2)%nat then WriteNoAck else WriteAck;
              disconnect_ok := negb (i =? 1)%nat |}.

(** A peripheral that is out of reach. *)
Definition unreachable : transport :=
  fun _ => {| connect_ok := false; lookup_ok := false;
              write_res := WriteRaises; disconnect_ok := false |}.

Definition frame_of (value : string) : ScanEntry :=
  {| addr := "E7:4D:36:CF:9E:7A";
     getScanData := [(1, "Flags"%string, "06"%string);
                     (22, "16b Service Data"%string, value)] |}.

(** ** Further readings of runs *)

Definition is_lookup (e : event) : bool :=
  match e with EvLookup _ => true | _ => false end.

(** A write the peripheral acknowledged. *)
Definition is_acked (e : event) : bool :=
  match e with EvWrite _ WriteAck => true | _ => false end.

Definition acks_of (r : result bool) : nat :=
  match r with Ok true => 1%nat | _ => 0%nat end.

(** What a run with budget [retry] may have added to the trace: at most
    [budget + 1] connections, lookups, writes and disconnects, at most
    [budget] pauses, and an acknowledged write exactly when the outcome is
    [True]. *)
Definition within_budget (budget : nat) (r : result bool) (new : list event)
  : Prop :=
  (count is_connect new <= S budget)%nat
  /\ (count is_lookup new <= S budget)%nat
  /\ (count is_write new <= S budget)%nat
  /\ (count is_disconnect new <= S budget)%nat
  /\ (count is_sleep new <= budget)%nat
  /\ count is_acked new = acks_of r.

(** An attempt that cannot open the connection. *)
Definition connect_fails (a : attempt) : Prop := connect_ok a = false.

(** The events of [k] attempts in a row that cannot connect, with the pause
    between two of them. *)
Fixpoint refused (k : nat) : list event :=
  match k with
  | O => []
  | S O => [EvConnect false]
  | S k' => EvConnect false :: EvSleep :: refused k'
  end.

(** A curtain built with the password ["123456789"]. *)
Definition sample_locked_curtain : SwitchbotCurtain :=
  {| base := sample_locked_device; _reverse := false; _pos := 0;
     _light_level := 0; _battery_percent := 0 |}.

(** A peripheral that acknowledges every write. *)
Definition reachable : transport :=
  fun _ => {| connect_ok := true; lookup_ok := true;
              write_res := WriteAck; disconnect_ok := true |}.

(** ** The position command on the wire *)




(** * Properties *)

(** ** The built-ins on known values *)

Example fx1 : format_x 255 = "ff"%string. Proof. reflexivity. Qed.
Example fx2 : format_x 0 = "0"%string. Proof. reflexivity. Qed.
Example fx3 : format_x 0xcbf43926 = "cbf43926"%string. Proof. reflexivity. Qed.
Example fx4 : format_02X 5 = "05"%string. Proof. reflexivity. Qed.
Example fx5 : format_02X 100 = "64"%string. Proof. reflexivity. Qed.
Example fx6 : format_02X 255 = "FF"%string. Proof. reflexivity. Qed.
Example fx7 : format_02X 256 = "100"%string. Proof. reflexivity. Qed.
Example fx8 : format_02X (-5) = "-05"%string. Proof. reflexivity. Qed.
Example crc_check : crc32 (ords "123456789") = 0xcbf43926. Proof. reflexivity. Qed.
Example crc_tab1 : crc_32_tab 1 = 0x77073096. Proof. reflexivity. Qed.
Example crc_tab255 : crc_32_tab 255 = 0x2d02ef8d. Proof. reflexivity. Qed.
Example crc_empty : crc32 [] = 0. Proof. reflexivity. Qed.
Example a2b1 : a2b_hex "570f450105ff00" = Ok [87;15;69;1;5;255;0]. Proof. reflexivity. Qed.
Example a2b2 : a2b_hex "570" = Raise binascii_Error. Proof. reflexivity. Qed.
Example int16_1E : int16 (ords "1E") = Ok 30. Proof. reflexivity. Qed.
Example int16_sp : int16 (ords " e") = Ok 14. Proof. reflexivity. Qed.
Example int16_neg : int16 (ords "-e") = Ok (-14). Proof. reflexivity. Qed.
Example int16_0x : int16 (ords "0x") = Raise ValueError. Proof. reflexivity. Qed.
Example int16_us : int16 (ords "1_") = Raise ValueError. Proof. reflexivity. Qed.
Example int16_e : int16 [] = Raise ValueError. Proof. reflexivity. Qed.
Example slice5 : slice (ords "A1E32") (Some (-6)) (Some (-4)) = ords "A". Proof. reflexivity. Qed.
Example slice4 : slice (ords "1E32") (Some (-6)) (Some (-4)) = []. Proof. reflexivity. Qed.
Example slice6 : slice (ords "x1E3201") (Some (-2)) None = ords "01". Proof. reflexivity. Qed.
Example lower_ascii : lower "E7:4D:aB" = "e7:4d:ab"%string. Proof. reflexivity. Qed.
Example lower_capital_e_acute :
  lower_char (ascii_of_nat 201) = ascii_of_nat 233. Proof. reflexivity. Qed.
Example lower_multiplication_sign :
  lower_char (ascii_of_nat 215) = ascii_of_nat 215. Proof. reflexivity. Qed.
Example lower_sharp_s :
  lower_char (ascii_of_nat 223) = ascii_of_nat 223. Proof. reflexivity. Qed.

(** ** Command encoding *)

Lemma commandkey_no_password (self : SwitchbotDevice) (key : string) :
  _password_encoded self = None -> _commandkey self key = key.
Proof. intros H. unfold _commandkey. now rewrite H. Qed.

Lemma commandkey_password (self : SwitchbotDevice) (pw : string) (c : Command) :
  _password_encoded self = Some pw ->
  _commandkey self (opcode c) = (KEY_PASSWORD_PREFIX ++ pw ++ suffix c)%string.
Proof.
  intros H. unfold _commandkey. rewrite H.
  destruct c; reflexivity.
Qed.

(** C5.  Without a password the encoded command is the opcode itself.  With
    an encoded password [pw] it is ["5711"], then [pw], then a two digit
    suffix: ["01"] for the on opcode, ["02"] for the off opcode and ["00"]
    for every other command, the curtain commands included.  The opcode is
    not a part of that result: the result depends on the command through the
    suffix alone and does not begin with the opcode. *)
Theorem commandkey_encoding (self : SwitchbotDevice) (c : Command) :
  (_password_encoded self = None -> _commandkey self (opcode c) = opcode c)
  /\ (forall pw, _password_encoded self = Some pw ->
        _commandkey self (opcode c) = ("5711" ++ pw ++ suffix c)%string
        /\ suffix c = match c with
                      | TurnOn => "01" | TurnOff => "02" | _ => "00"
                      end%string
        /\ (forall c', suffix c' = suffix c ->
              _commandkey self (opcode c') = _commandkey self (opcode c))
        /\ String.prefix (opcode c) (_commandkey self (opcode c)) = false).
Proof.
  split.
  - apply commandkey_no_password.
  - intros pw H. rewrite (commandkey_password _ pw c H).
    split; [reflexivity|]. split; [destruct c; reflexivity|]. split.
    + intros c' Hc. rewrite (commandkey_password _ pw c' H). now rewrite Hc.
    + destruct c; reflexivity.
Qed.

Lemma commandkey_encoding_witness :
  _commandkey sample_device (opcode CurtainClose) = "570f450105ff64"%string
  /\ _commandkey sample_locked_device (opcode TurnOff)
     = "5711cbf4392602"%string.
Proof.
  split.
  - exact (proj1 (commandkey_encoding sample_device CurtainClose) eq_refl).
  - exact (proj1 (proj2 (commandkey_encoding sample_locked_device TurnOff)
                        "cbf43926"%string eq_refl)).
Defined.

(** ** Construction *)

(** C9.  A device built with the empty string as password is the device
    built with no password: its encoded password is [None], and every key is
    encoded as itself. *)
Theorem empty_password_is_no_password
        (mac : string) (retry_count : Z) (interface : option Z) :
  SwitchbotDevice__init__ mac retry_count (Some ""%string) interface
  = SwitchbotDevice__init__ mac retry_count None interface
  /\ exists d,
       SwitchbotDevice__init__ mac retry_count (Some ""%string) interface = Ok d
       /\ _password_encoded d = None
       /\ forall key, _commandkey d key = key.
Proof.
  split; [reflexivity|].
  eexists. split; [reflexivity|]. split; [reflexivity|].
  intros key. reflexivity.
Qed.

(** ** Sending with retries *)

Lemma count_app (f : event -> bool) (a b : list event) :
  count f (a ++ b) = (count f a + count f b)%nat.
Proof. unfold count. now rewrite filter_app, length_app. Qed.

Lemma count_rounds (T : transport) (data : bytes) (k n : nat) :
  count is_connect (rounds T data n k) = k
  /\ count is_write (rounds T data n k) = k
  /\ count is_disconnect (rounds T data n k) = k
  /\ count is_sleep (rounds T data n k) = k.
Proof.
  revert n. induction k as [|k IH]; intros n; [now cbn|].
  destruct (IH (S n)) as (Hc & Hw & Hd & Hs).
  cbn [rounds round app]. unfold count in *. cbn [filter is_connect is_write is_disconnect is_sleep List.length].
  now rewrite Hc, Hw, Hd, Hs.
Qed.

Lemma with_device_None (self : SwitchbotDevice) :
  _device self = None -> with_device None self = self.
Proof. destruct self; cbn; intros ->; reflexivity. Qed.

(** The recursion of [_sendcommand] never runs out of [gas]: it satisfies
    the equation of the Python method. *)
Lemma sendcommand_unfold (T : transport) (key : string) (retry : Z) (s : St) :
  _sendcommand T key retry s
  = _sendcommand_body T (_sendcommand T) key retry s.
Proof.
  unfold _sendcommand. destruct (Z.to_nat retry) as [|g] eqn:E; cbn [_sendcommand_rec];
    unfold _sendcommand_body, bind, get;
    destruct (send_once T _ s) as [[[|]|e] s1]; try reflexivity.
  - destruct (Z.ltb_spec retry 1); [reflexivity|lia].
  - destruct (Z.ltb_spec retry 1); [reflexivity|].
    replace (Z.to_nat (retry - 1)) with g by lia. reflexivity.
Qed.

Lemma send_once_written (T : transport) (command : string) (data : bytes)
      (s : St) :
  _device (self_ s) = None ->
  connect_ok (T (attempt_no (env s))) = true ->
  lookup_ok (T (attempt_no (env s))) = true ->
  a2b_hex command = Ok data ->
  send_once T command s
  = (Ok (acknowledged (write_res (T (attempt_no (env s))))),
     later s 1 (round T data (attempt_no (env s)))).
Proof.
  destruct s as [[i m d rc pw] [n tr]]. cbn. intros -> Hc Hl Ha.
  cbv [send_once try_finally try_except _connect _writekey _disconnect
       bind get script emit set_device next_attempt modify ret raise later
       round _device self_ env attempt_no trace with_device is_BTLEException].
  rewrite Hc. cbv iota beta. rewrite Hl, Ha.
  destruct (write_res (T n)), (disconnect_ok (T n)); cbn;
    rewrite <- ?app_assoc, Nat.add_1_r; reflexivity.
Qed.

Lemma later_self (s : St) (k : nat) (evs : list event) :
  _device (self_ s) = None -> self_ (later s k evs) = self_ s.
Proof. intros H. cbn. now apply with_device_None. Qed.

Lemma write_fails_not_acknowledged (a : attempt) :
  write_fails a -> acknowledged (write_res a) = false.
Proof. intros (_ & _ & H). destruct (write_res a); [congruence|reflexivity..]. Qed.

(** [k] unacknowledged attempts that are retried, then one last attempt:
    either it is acknowledged, or the budget is used up. *)
Lemma sendcommand_run (T : transport) (key : string) (data : bytes) (k : nat) :
  forall (retry : Z) (s : St),
    _device (self_ s) = None ->
    a2b_hex (_commandkey (self_ s) key) = Ok data ->
    (forall i, (i < k)%nat -> write_fails (T (attempt_no (env s) + i)%nat)) ->
    connect_ok (T (attempt_no (env s) + k)%nat) = true ->
    lookup_ok (T (attempt_no (env s) + k)%nat) = true ->
    Z.of_nat k <= retry ->
    write_res (T (attempt_no (env s) + k)%nat) = WriteAck \/ retry = Z.of_nat k ->
    _sendcommand T key retry s
    = (Ok (acknowledged (write_res (T (attempt_no (env s) + k)%nat))),
       later s (S k)
             (rounds T data (attempt_no (env s)) k
              ++ round T data (attempt_no (env s) + k)%nat)).
Proof.
  induction k as [|k IH]; intros retry s Hd Ha Hf Hc Hl Hr Hend;
    rewrite sendcommand_unfold; unfold _sendcommand_body, bind, get.
  - rewrite Nat.add_0_r in *.
    rewrite (send_once_written T _ data s Hd Hc Hl Ha). cbn [rounds app].
    destruct (acknowledged (write_res (T (attempt_no (env s))))) eqn:E;
      [reflexivity|].
    destruct Hend as [Hw | ->]; [rewrite Hw in E; discriminate | reflexivity].
  - pose proof (Hf 0%nat ltac:(lia)) as H0. rewrite Nat.add_0_r in H0.
    destruct H0 as (Hc0 & Hl0 & Hw0).
    rewrite (send_once_written T _ data s Hd Hc0 Hl0 Ha).
    rewrite (write_fails_not_acknowledged _ (conj Hc0 (conj Hl0 Hw0))).
    destruct (Z.ltb_spec retry 1); [lia|].
    set (s1 := later s 1 (round T data (attempt_no (env s)))).
    unfold sleep, emit, modify. cbv beta iota.
    match goal with |- _sendcommand T key (retry - 1) ?x = _ => set (s2 := x) end.
    assert (Hn : attempt_no (env s2) = S (attempt_no (env s)))
      by (cbn; lia).
    assert (Hs : self_ s2 = self_ s) by (cbn; now apply with_device_None).
    rewrite (IH (retry - 1) s2).
    + rewrite Hn. replace (S (attempt_no (env s)) + k)%nat
        with (attempt_no (env s) + S k)%nat by lia.
      f_equal. unfold later. rewrite Hs, Hn.
      rewrite (with_device_None _ Hd). f_equal. f_equal; [lia|].
      cbn [rounds trace env s2 s1 later]. now rewrite <- !app_assoc.
    + now rewrite Hs.
    + now rewrite Hs.
    + intros i Hi. rewrite Hn.
      replace (S (attempt_no (env s)) + i)%nat
        with (attempt_no (env s) + S i)%nat by lia.
      apply Hf. lia.
    + rewrite Hn. now replace (S (attempt_no (env s)) + k)%nat
        with (attempt_no (env s) + S k)%nat by lia.
    + rewrite Hn. now replace (S (attempt_no (env s)) + k)%nat
        with (attempt_no (env s) + S k)%nat by lia.
    + lia.
    + rewrite Hn. replace (S (attempt_no (env s)) + k)%nat
        with (attempt_no (env s) + S k)%nat by lia.
      destruct Hend as [Hw | ->]; [now left | right; lia].
Qed.

(** C2.  Let the payload be decodable hexadecimal and let the write go
    unacknowledged on the first [N] attempts and be acknowledged on the next
    one.  With a retry budget of at least [N], [_sendcommand] returns [True]
    after exactly [N + 1] attempts, each with its disconnect, and sleeps [N]
    times: nothing follows the acknowledged write.  With a budget below [N]
    it returns [False] after exactly [retry + 1] attempts. *)
Theorem sendcommand_retry_budget
        (T : transport) (key : string) (data : bytes) (N : nat) (retry : Z)
        (s : St) :
  _device (self_ s) = None ->
  a2b_hex (_commandkey (self_ s) key) = Ok data ->
  (forall i, (i < N)%nat -> write_fails (T (attempt_no (env s) + i)%nat)) ->
  write_succeeds (T (attempt_no (env s) + N)%nat) ->
  (Z.of_nat N <= retry ->
   exists s' new,
     _sendcommand T key retry s = (Ok true, s')
     /\ self_ s' = self_ s /\ added s s' new
     /\ count is_disconnect new = S N
     /\ count is_connect new = S N
     /\ count is_write new = S N
     /\ count is_sleep new = N)
  /\ (0 <= retry < Z.of_nat N ->
      exists s' new,
        _sendcommand T key retry s = (Ok false, s')
        /\ self_ s' = self_ s /\ added s s' new
        /\ Z.of_nat (count is_connect new) = retry + 1
        /\ Z.of_nat (count is_write new) = retry + 1
        /\ Z.of_nat (count is_disconnect new) = retry + 1
        /\ Z.of_nat (count is_sleep new) = retry).
Proof.
  intros Hd Ha Hf (Hc & Hl & Hw). split; intros Hr.
  - eexists _, _. split.
    + rewrite (sendcommand_run T key data N retry s); auto.
      rewrite Hw. reflexivity.
    + split; [now apply later_self|]. split; [reflexivity|].
      rewrite !count_app.
      destruct (count_rounds T data N (attempt_no (env s))) as (-> & -> & -> & ->).
      cbn. repeat split; lia.
  - set (k := Z.to_nat retry).
    assert (Hk : (k < N)%nat) by lia.
    destruct (Hf k Hk) as (Hck & Hlk & Hwk).
    eexists _, _. split.
    + rewrite (sendcommand_run T key data k retry s); auto; try lia.
      * rewrite (write_fails_not_acknowledged _ (Hf k Hk)). reflexivity.
      * intros i Hi. apply Hf. lia.
    + split; [now apply later_self|]. split; [reflexivity|].
      rewrite !count_app.
      destruct (count_rounds T data k (attempt_no (env s))) as (-> & -> & -> & ->).
      cbn. repeat split; lia.
Qed.

Lemma sendcommand_retry_budget_witness :
  (exists s',
     _sendcommand flaky_twice ON_KEY 3
                  {| self_ := sample_device; env := fresh_world |}
     = (Ok true, s'))
  /\ (exists s',
        _sendcommand flaky_twice ON_KEY 1
                     {| self_ := sample_device; env := fresh_world |}
        = (Ok false, s')).
Proof.
  assert (Hf : forall i, (i < 2)%nat ->
                 write_fails (flaky_twice (0 + i)%nat)).
  { intros [|[|i]] Hi; [repeat split; discriminate ..| lia]. }
  assert (Hs : write_succeeds (flaky_twice (0 + 2)%nat))
    by (repeat split).
  split.
  - destruct (proj1 (sendcommand_retry_budget flaky_twice ON_KEY [87; 1; 1] 2 3
                       {| self_ := sample_device; env := fresh_world |}
                       eq_refl eq_refl Hf Hs) ltac:(lia))
      as (s' & new & E & _).
    now exists s'.
  - destruct (proj2 (sendcommand_retry_budget flaky_twice ON_KEY [87; 1; 1] 2 1
                       {| self_ := sample_device; env := fresh_world |}
                       eq_refl eq_refl Hf Hs) ltac:(lia))
      as (s' & new & E & _).
    now exists s'.
Defined.

(** ** Releasing the connection *)

Lemma disconnect_never_raises (T : transport) (s : St) :
  exists s', _disconnect T s = (Ok tt, s') /\ _device (self_ s') = None.
Proof.
  destruct s as [[i m d rc pw] [n tr]].
  cbv [_disconnect try_finally try_except bind get script emit set_device
       modify ret raise _device self_ env attempt_no trace with_device
       is_BTLEException].
  destruct d; [destruct (disconnect_ok (T n))|]; eexists; split; reflexivity.
Qed.

Lemma send_once_released (T : transport) (command : string) (s : St) :
  exists r s', send_once T command s = (r, s') /\ released s r s'.
Proof.
  destruct s as [[i m d rc pw] [n tr]]. unfold released, added, initially_open.
  cbv [send_once try_finally try_except _connect _writekey _disconnect
       bind get script emit set_device next_attempt modify ret raise
       _device self_ env attempt_no trace with_device is_BTLEException].
  destruct d, (connect_ok (T n)), (lookup_ok (T n)), (a2b_hex command) as [data|[]],
    (write_res (T n)), (disconnect_ok (T n));
    cbv beta iota;
    (eexists _, _; split; [reflexivity|];
     split; [reflexivity|]; split; [discriminate|];
     eexists; split; [rewrite <- ?app_assoc; reflexivity | reflexivity]).
Qed.

Lemma released_after_sleep (s s1 s' : St) (r1 r : result bool) :
  released s r1 s1 ->
  released {| self_ := self_ s1;
              env := {| attempt_no := attempt_no (env s1);
                        trace := trace (env s1) ++ [EvSleep] |} |} r s' ->
  released s r s'.
Proof.
  intros (Hd1 & _ & new1 & Ha1 & Hc1) (Hd & Hr & new2 & Ha2 & Hc2).
  unfold released. split; [exact Hd|]. split; [exact Hr|].
  exists (new1 ++ EvSleep :: new2)%list. split.
  - unfold added in *. cbn in Ha2. rewrite Ha2, Ha1.
    now rewrite <- !app_assoc.
  - unfold initially_open in Hc2. cbn in Hc2. rewrite Hd1 in Hc2.
    rewrite !count_app, Hc1.
    change (EvSleep :: new2) with ([EvSleep] ++ new2)%list.
    rewrite !count_app, Hc2. cbn. lia.
Qed.

Lemma released_stay (s s1 : St) (r1 r : result bool) :
  released s r1 s1 -> r <> Raise BTLEException -> released s r s1.
Proof. intros (Hd & _ & H) Hr. now split. Qed.

Lemma released_slept (s s1 : St) (r1 r : result bool) :
  released s r1 s1 -> r <> Raise BTLEException ->
  released s r {| self_ := self_ s1;
                  env := {| attempt_no := attempt_no (env s1);
                            trace := trace (env s1) ++ [EvSleep] |} |}.
Proof.
  intros (Hd & _ & new & Ha & Hc) Hr. split; [exact Hd|]. split; [exact Hr|].
  exists (new ++ [EvSleep])%list. split.
  - unfold added in *. cbn. now rewrite Ha, app_assoc.
  - rewrite !count_app, Hc. cbn. lia.
Qed.

Lemma sendcommand_rec_released (T : transport) (gas : nat) :
  forall (key : string) (retry : Z) (s : St),
  exists r s', _sendcommand_rec T gas key retry s = (r, s') /\ released s r s'.
Proof.
  induction gas as [|g IH]; intros key retry s; cbn [_sendcommand_rec];
    unfold _sendcommand_body, bind, get;
    destruct (send_once_released T (_commandkey (self_ s) key) s)
      as (r1 & s1 & E & R); rewrite E;
    destruct r1 as [[|]|e].
  1,4: eexists _, _; split; [reflexivity|]; exact R.
  2,4: eexists _, _; split; [reflexivity|]; exact R.
  - destruct (retry <? 1).
    + eexists _, _. split; [reflexivity|].
      apply (released_stay _ _ _ _ R). discriminate.
    + unfold sleep, emit, modify, ret. eexists _, _. split; [reflexivity|].
      apply (released_slept _ _ _ _ R). discriminate.
  - destruct (retry <? 1).
    + eexists _, _. split; [reflexivity|].
      apply (released_stay _ _ _ _ R). discriminate.
    + unfold sleep, emit, modify. cbv beta iota.
      match goal with |- context [_sendcommand_rec T g key (retry - 1) ?x] =>
        destruct (IH key (retry - 1) x) as (r & s' & E2 & R2) end.
      rewrite E2. eexists _, _. split; [reflexivity|].
      exact (released_after_sleep _ _ _ _ _ R R2).
Qed.

(** C3.  Whatever the peripheral does on connect, lookup, write and
    disconnect, and whatever the key and the retry budget: [_disconnect]
    ends normally and leaves no handle stored, also when the peripheral's
    disconnect fails; every single attempt, and every call of
    [_sendcommand], ends with no handle stored, with one disconnect for each
    connection opened (or found open), and without a [BTLEException]
    reaching the caller. *)
Theorem connection_released (T : transport) :
  (forall s, exists s',
      _disconnect T s = (Ok tt, s') /\ _device (self_ s') = None)
  /\ (forall command s, exists r s',
        send_once T command s = (r, s') /\ released s r s')
  /\ (forall key retry s, exists r s',
        _sendcommand T key retry s = (r, s') /\ released s r s').
Proof.
  split; [apply disconnect_never_raises|].
  split; [apply send_once_released|].
  intros key retry s. apply sendcommand_rec_released.
Qed.

(** ** The curtain's cached position *)

(** A base class method run on a curtain touches the base attributes and
    the peripheral only. *)
Lemma inherited_keeps_curtain {A : Type} (m : M St A) (c : CSt) :
  _pos (cself (snd (inherited m c))) = _pos (cself c)
  /\ _reverse (cself (snd (inherited m c))) = _reverse (cself c)
  /\ _light_level (cself (snd (inherited m c))) = _light_level (cself c)
  /\ _battery_percent (cself (snd (inherited m c)))
     = _battery_percent (cself c).
Proof.
  unfold inherited. destruct (m _) as [r s]. cbn. auto.
Qed.

Lemma set_position_cached (T : transport) (st : CSt) (p : Z) :
  _pos (cself (snd (set_position T p st)))
  = if _reverse (cself st) then 100 - p else p.
Proof.
  unfold set_position, bind, get, set_pos, modify. cbv beta iota.
  now rewrite (proj1 (inherited_keeps_curtain _ _)).
Qed.

Lemma open_cached (T : transport) (st : CSt) :
  _pos (cself (snd (open T st))) = if _reverse (cself st) then 100 else 0.
Proof.
  unfold open, bind, get, set_pos, modify. cbv beta iota.
  now rewrite (proj1 (inherited_keeps_curtain _ _)).
Qed.

Lemma close_cached (T : transport) (st : CSt) :
  _pos (cself (snd (close T st))) = if _reverse (cself st) then 0 else 100.
Proof.
  unfold close, bind, get, set_pos, modify. cbv beta iota.
  now rewrite (proj1 (inherited_keeps_curtain _ _)).
Qed.

(** C4.  Every curtain command that has a target writes it to the cached
    position before the command is sent, and the send, whatever its outcome,
    leaves it there: [set_position p] caches [p], or [100 - p] in reverse
    mode; [open] caches 0, or 100 in reverse mode; [close] caches 100, or 0
    in reverse mode. *)
Theorem position_cached_before_send (T : transport) (st : CSt) (p : Z) :
  let cached m := _pos (cself (snd (m st))) in
  let started_with target key :=
    inherited (s <- get ;; _sendcommand T key (_retry_count (self_ s)))
              {| cself := with_pos target (cself st); cenv := cenv st |} in
  let target := if _reverse (cself st) then 100 - p else p in
  (set_position T p st
   = started_with target (POSITION_KEY ++ format_02X target)%string
   /\ cached (set_position T p) = target)
  /\ (open T st = started_with (if _reverse (cself st) then 100 else 0) OPEN_KEY
      /\ cached (open T) = if _reverse (cself st) then 100 else 0)
  /\ (close T st
      = started_with (if _reverse (cself st) then 0 else 100) CLOSE_KEY
      /\ cached (close T) = if _reverse (cself st) then 0 else 100).
Proof.
  cbv zeta. repeat split.
  - apply set_position_cached.
  - apply open_cached.
  - apply close_cached.
Qed.

Example set_position_70_send_fails :
  let run := set_position unreachable 70
               {| cself := sample_curtain false; cenv := fresh_world |} in
  fst run = Ok false /\ get_position (cself (snd run)) = 70.
Proof. vm_compute. split; reflexivity. Qed.

Example set_position_70_send_succeeds :
  let run := set_position flaky_twice 70
               {| cself := sample_curtain false; cenv := fresh_world |} in
  fst run = Ok true /\ get_position (cself (snd run)) = 70.
Proof. vm_compute. split; reflexivity. Qed.

Example reversed_close_then_open :
  let st1 := snd (close unreachable
                    {| cself := sample_curtain true; cenv := fresh_world |}) in
  let st2 := snd (open unreachable st1) in
  get_position (cself st1) = 0 /\ get_position (cself st2) = 100.
Proof. vm_compute. split; reflexivity. Qed.

(** C10.  In reverse mode [set_position p] caches the device-facing value
    [100 - p], which is what [get_position] then returns: [set_position 100]
    caches 0 while [open] caches 100, although the two commands put the same
    bytes on the wire for every device configuration. *)
Theorem reverse_mode_cache_scales (T : transport) (st : CSt) (p : Z) :
  _reverse (cself st) = true ->
  get_position (cself (snd (set_position T p st))) = 100 - p
  /\ get_position (cself (snd (set_position T 100 st))) = 0
  /\ get_position (cself (snd (open T st))) = 100
  /\ get_position (cself (snd (close T st))) = 0
  /\ forall self,
       a2b_hex (_commandkey self (POSITION_KEY ++ format_02X (100 - 100))%string)
       = a2b_hex (_commandkey self OPEN_KEY).
Proof.
  intros Hrev. unfold get_position.
  rewrite !set_position_cached, open_cached, close_cached, Hrev.
  repeat split.
  intros self. unfold _commandkey. destruct (_password_encoded self); reflexivity.
Qed.

Lemma reverse_mode_cache_scales_witness :
  let st := {| cself := sample_curtain true; cenv := fresh_world |} in
  get_position (cself (snd (set_position flaky_twice 100 st))) = 0
  /\ get_position (cself (snd (open flaky_twice st))) = 100.
Proof.
  cbv zeta.
  destruct (reverse_mode_cache_scales flaky_twice
              {| cself := sample_curtain true; cenv := fresh_world |} 100
              eq_refl) as (_ & H100 & Hopen & _).
  split; assumption.
Defined.

(** ** Hexadecimal rendering *)

Lemma string_app_assoc (a b c : string) :
  ((a ++ b) ++ c)%string = (a ++ (b ++ c))%string.
Proof. induction a as [|x a IH]; cbn; [reflexivity | now rewrite IH]. Qed.

Lemma ords_app (a b : string) : ords (a ++ b) = (ords a ++ ords b)%list.
Proof.
  unfold ords. induction a as [|x a IH]; cbn; [reflexivity | now rewrite IH].
Qed.

Lemma string_length_app (a b : string) :
  String.length (a ++ b) = (String.length a + String.length b)%nat.
Proof. induction a as [|x a IH]; cbn; [reflexivity | now rewrite IH]. Qed.

Lemma hex_digits_rec_acc (u : bool) (gas : nat) :
  forall n acc,
    hex_digits_rec gas u n acc
    = (hex_digits_rec gas u n EmptyString ++ acc)%string.
Proof.
  induction gas as [|g IH]; intros n acc; cbn [hex_digits_rec]; [reflexivity|].
  destruct (n <? 16); [reflexivity|].
  rewrite (IH _ (String _ acc)), (IH _ (String _ EmptyString)).
  now rewrite string_app_assoc.
Qed.

Lemma hex_digits_rec_gas (u : bool) (g : nat) :
  forall g' n acc,
    (g <= g')%nat -> 0 <= n < 2 ^ Z.of_nat (S g) ->
    hex_digits_rec (S g') u n acc = hex_digits_rec (S g) u n acc.
Proof.
  induction g as [|g IH]; intros g' n acc Hg Hn.
  - cbn [hex_digits_rec]. change (2 ^ Z.of_nat 1) with 2 in Hn.
    destruct (Z.ltb_spec n 16); [reflexivity | lia].
  - destruct g' as [|g']; [lia|].
    cbn [hex_digits_rec]. destruct (Z.ltb_spec n 16); [reflexivity|].
    apply IH; [lia|].
    rewrite Nat2Z.inj_succ, Z.pow_succ_r in Hn by lia.
    split; [apply Z.div_pos; lia|].
    apply Z.div_lt_upper_bound; lia.
Qed.

(** The digits of [n] do not depend on the gas: they are the digits of
    [n / 16] followed by the digit [n mod 16]. *)
Lemma hex_digits_eq (u : bool) (n : Z) :
  0 <= n ->
  hex_digits u n
  = if n <? 16 then String (hex_digit u n) EmptyString
    else (hex_digits u (n / 16)
          ++ String (hex_digit u (n mod 16)) EmptyString)%string.
Proof.
  intros Hn. unfold hex_digits at 1. cbn [hex_digits_rec].
  destruct (Z.ltb_spec n 16) as [Hlt|Hge].
  - now rewrite Z.mod_small by lia.
  - rewrite hex_digits_rec_acc. f_equal. unfold hex_digits.
    assert (Hq : 0 < n / 16) by (apply Z.div_str_pos; lia).
    assert (Hl : Z.log2 (n / 16) < Z.log2 n).
    { apply Z.log2_lt_pow2; [lia|].
      apply Z.div_lt_upper_bound; [lia|].
      pose proof (Z.log2_spec n ltac:(lia)) as [_ Hs].
      rewrite Z.pow_succ_r in Hs by (apply Z.log2_nonneg). lia. }
    pose proof (Z.log2_nonneg (n / 16)).
    destruct (Z.to_nat (Z.log2 n)) as [|g'] eqn:E; [lia|].
    apply hex_digits_rec_gas; [lia|].
    rewrite Nat2Z.inj_succ, Z2Nat.id by lia.
    pose proof (Z.log2_spec (n / 16) Hq). lia.
Qed.

Ltac digit_cases d :=
  let H := fresh in
  assert (H : d = 0 \/ d = 1 \/ d = 2 \/ d = 3 \/ d = 4 \/ d = 5 \/ d = 6
              \/ d = 7 \/ d = 8 \/ d = 9 \/ d = 10 \/ d = 11 \/ d = 12
              \/ d = 13 \/ d = 14 \/ d = 15) by lia;
  repeat (destruct H as [H|H]; [rewrite H|]); [..|rewrite H].

Lemma hex_digit_value (u : bool) (d : Z) :
  0 <= d < 16 ->
  hex_char_value (ord (hex_digit u d)) = d
  /\ _PyLong_DigitValue (ord (hex_digit u d)) = d
  /\ is_hex_char (ord (hex_digit u d)) = true.
Proof. intros Hd. digit_cases d; destruct u; now vm_compute. Qed.

Lemma hex_digit_lower (d : Z) :
  0 <= d < 16 -> is_lower_hex_char (ord (hex_digit false d)) = true.
Proof. intros Hd. digit_cases d; now vm_compute. Qed.

Lemma hex_digit_nonzero (u : bool) (d : Z) :
  0 < d < 16 -> hex_digit u d <> "0"%char.
Proof. intros Hd. digit_cases d; try lia; destruct u; now vm_compute. Qed.

Lemma hex_value_snoc (s : string) (c : ascii) :
  hex_value (s ++ String c EmptyString)
  = hex_value s * 16 + hex_char_value (ord c).
Proof. unfold hex_value. now rewrite ords_app, fold_left_app. Qed.

Lemma hex_digits_value (u : bool) (n : Z) :
  0 <= n -> hex_value (hex_digits u n) = n.
Proof.
  intros Hn. generalize Hn. pattern n. apply Z_lt_induction; [|exact Hn].
  clear n Hn. intros n IH Hn.
  rewrite hex_digits_eq by exact Hn.
  destruct (Z.ltb_spec n 16).
  - unfold hex_value. cbn. now rewrite (proj1 (hex_digit_value u n ltac:(lia))).
  - assert (Hq : 0 <= n / 16 < n)
      by (split; [apply Z.div_pos; lia | apply Z.div_lt; lia]).
    rewrite hex_value_snoc, IH by (exact Hq || lia).
    rewrite (proj1 (hex_digit_value u (n mod 16)
                      ltac:(apply Z.mod_pos_bound; lia))).
    pose proof (Z.div_mod n 16 ltac:(lia)). lia.
Qed.

Lemma hex_digits_lower (n : Z) :
  0 <= n -> forallb is_lower_hex_char (ords (hex_digits false n)) = true.
Proof.
  intros Hn. generalize Hn. pattern n. apply Z_lt_induction; [|exact Hn].
  clear n Hn. intros n IH Hn.
  rewrite hex_digits_eq by exact Hn.
  destruct (Z.ltb_spec n 16).
  - cbn. now rewrite hex_digit_lower by lia.
  - assert (Hq : 0 <= n / 16 < n)
      by (split; [apply Z.div_pos; lia | apply Z.div_lt; lia]).
    rewrite ords_app, forallb_app, IH by (exact Hq || lia).
    cbn. now rewrite hex_digit_lower by (apply Z.mod_pos_bound; lia).
Qed.

Lemma hex_digits_head (u : bool) (n : Z) :
  0 < n -> exists c r, hex_digits u n = String c r /\ c <> "0"%char.
Proof.
  intros Hn. assert (H0 : 0 <= n) by lia.
  generalize Hn. pattern n. apply Z_lt_induction; [|exact H0].
  clear n Hn H0. intros n IH Hn.
  rewrite hex_digits_eq by lia.
  destruct (Z.ltb_spec n 16).
  - eexists _, _. split; [reflexivity|]. apply hex_digit_nonzero. lia.
  - assert (Hq : 0 < n / 16) by (apply Z.div_str_pos; lia).
    destruct (IH (n / 16)) as (c & r & E & Hc);
      [split; [lia | apply Z.div_lt; lia] | exact Hq |].
    rewrite E. cbn. now eexists _, _.
Qed.

Lemma format_x_nonneg (n : Z) : 0 <= n -> format_x n = hex_digits false n.
Proof.
  intros Hn. unfold format_x, sign_of.
  destruct (Z.ltb_spec n 0); [lia|]. now rewrite Z.abs_eq.
Qed.

(** ['%x' % n] of a non-negative [n] is its lowercase hexadecimal numeral
    without padding. *)
Lemma format_x_lower_hex_unpadded (n : Z) :
  0 <= n -> lower_hex_unpadded n (format_x n).
Proof.
  intros Hn. rewrite format_x_nonneg by exact Hn. repeat split.
  - now apply hex_digits_lower.
  - now apply hex_digits_value.
  - destruct (Z.eq_dec n 0) as [->|Hz]; [now left|].
    right. apply hex_digits_head. lia.
Qed.

(** ** The checksum stays within 32 bits *)

Lemma lxor_below (a b : Z) :
  0 <= a < 2 ^ 32 -> 0 <= b < 2 ^ 32 -> 0 <= Z.lxor a b < 2 ^ 32.
Proof.
  intros Ha Hb.
  assert (H0 : 0 <= Z.lxor a b) by (apply Z.lxor_nonneg; lia).
  split; [exact H0|].
  destruct (Z.eq_dec (Z.lxor a b) 0) as [->|Hx]; [lia|].
  apply Z.log2_lt_pow2; [lia|].
  assert (La : Z.log2 a < 32).
  { destruct (Z.eq_dec a 0) as [->|]; [now cbn|]. apply Z.log2_lt_pow2; lia. }
  assert (Lb : Z.log2 b < 32).
  { destruct (Z.eq_dec b 0) as [->|]; [now cbn|]. apply Z.log2_lt_pow2; lia. }
  pose proof (Z.log2_lxor a b ltac:(lia) ltac:(lia)). lia.
Qed.

Lemma shiftr_below (a k : Z) :
  0 <= a < 2 ^ 32 -> 0 <= k -> 0 <= Z.shiftr a k < 2 ^ 32.
Proof.
  intros Ha Hk. rewrite Z.shiftr_div_pow2 by exact Hk.
  assert (0 < 2 ^ k) by (apply Z.pow_pos_nonneg; lia).
  split; [apply Z.div_pos; lia|].
  apply Z.div_lt_upper_bound; [lia|]. nia.
Qed.

Lemma crc_shift_below (c : Z) :
  0 <= c < 2 ^ 32 -> 0 <= crc_shift c < 2 ^ 32.
Proof.
  intros Hc. unfold crc_shift. pose proof (shiftr_below c 1 Hc ltac:(lia)).
  destruct (Z.testbit c 0); [|assumption].
  apply lxor_below; [assumption|]. now vm_compute.
Qed.

Lemma crc_32_tab_below (i : Z) :
  0 <= i < 2 ^ 32 -> 0 <= crc_32_tab i < 2 ^ 32.
Proof. intros Hi. unfold crc_32_tab. now do 8 apply crc_shift_below. Qed.

Lemma crc32_update_below (crc b : Z) :
  0 <= crc < 2 ^ 32 -> 0 <= crc32_update crc b < 2 ^ 32.
Proof.
  intros Hc. unfold crc32_update. apply lxor_below.
  - apply crc_32_tab_below.
    change 255 with (Z.ones 8). rewrite Z.land_ones by lia.
    pose proof (Z.mod_pos_bound (Z.lxor crc b) (2 ^ 8) ltac:(lia)).
    change (2 ^ 8) with 256 in *. change (2 ^ 32) with 4294967296. lia.
  - apply shiftr_below; [exact Hc | lia].
Qed.

Lemma crc32_below (data : bytes) : 0 <= crc32 data < 2 ^ 32.
Proof.
  unfold crc32. apply lxor_below; [|now vm_compute].
  assert (H : 0 <= 4294967295 < 2 ^ 32) by now vm_compute.
  revert H. generalize 4294967295.
  induction data as [|b data IH]; intros crc Hc; cbn [fold_left];
    [exact Hc|].
  apply IH. now apply crc32_update_below.
Qed.

Lemma mask32_crc32 (data : bytes) :
  Z.land (crc32 data) 4294967295 = crc32 data.
Proof.
  change 4294967295 with (Z.ones 32). rewrite Z.land_ones by lia.
  apply Z.mod_small, crc32_below.
Qed.

(** C6.  For a non-empty ASCII secret the constructor stores, as encoded
    password, the CRC-32 of the secret's bytes (a 32-bit value) written in
    lowercase hexadecimal without padding; the stored string depends on the
    secret alone, so any two constructions with the same secret store the
    same encoded password. *)
Theorem password_encoded_is_crc32_hex
        (mac : string) (retry_count : Z) (interface : option Z)
        (secret : string) :
  secret <> EmptyString ->
  is_ascii secret = true ->
  exists d,
    SwitchbotDevice__init__ mac retry_count (Some secret) interface = Ok d
    /\ _password_encoded d = Some (format_x (crc32 (ords secret)))
    /\ 0 <= crc32 (ords secret) < 2 ^ 32
    /\ lower_hex_unpadded (crc32 (ords secret)) (format_x (crc32 (ords secret)))
    /\ forall mac' retry_count' interface' d',
         SwitchbotDevice__init__ mac' retry_count' (Some secret) interface'
         = Ok d' ->
         _password_encoded d' = _password_encoded d.
Proof.
  intros Hne Hascii.
  assert (E : String.eqb secret "" = false)
    by (now apply String.eqb_neq).
  unfold SwitchbotDevice__init__, encode_ascii. rewrite E, Hascii.
  rewrite mask32_crc32. eexists. split; [reflexivity|].
  split; [reflexivity|]. split; [apply crc32_below|].
  split; [apply format_x_lower_hex_unpadded, crc32_below|].
  intros mac' rc' iface' d' H. injection H as <-. reflexivity.
Qed.

Lemma password_encoded_is_crc32_hex_witness :
  exists d,
    SwitchbotDevice__init__ "e7:4d:36:cf:9e:7a" 3 (Some "123456789"%string) None
    = Ok d
    /\ _password_encoded d = Some "cbf43926"%string.
Proof.
  destruct (password_encoded_is_crc32_hex "e7:4d:36:cf:9e:7a" 3 None
              "123456789" ltac:(discriminate) eq_refl)
    as (d & E & Hp & _).
  exists d. split; [exact E|]. rewrite Hp. reflexivity.
Defined.

(** A secret with a character outside ASCII cannot be encoded: the
    constructor raises and no device is built. *)
Lemma non_ascii_secret_raises
      (mac : string) (retry_count : Z) (interface : option Z)
      (secret : string) :
  secret <> EmptyString ->
  is_ascii secret = false ->
  SwitchbotDevice__init__ mac retry_count (Some secret) interface
  = Raise UnicodeEncodeError.
Proof.
  intros Hne Hascii. apply String.eqb_neq in Hne.
  unfold SwitchbotDevice__init__, encode_ascii. now rewrite Hne, Hascii.
Qed.

(** ** The position byte *)

Lemma hex_digits_byte (u : bool) (d : Z) :
  0 <= d < 256 ->
  pad_digits 2 (hex_digits u d)
  = String (hex_digit u (d / 16)) (String (hex_digit u (d mod 16)) EmptyString).
Proof.
  intros Hd. rewrite hex_digits_eq by lia.
  destruct (Z.ltb_spec d 16).
  - rewrite Z.div_small, Z.mod_small by lia. now destruct u.
  - assert (Hq : 0 <= d / 16 < 16)
      by (split; [apply Z.div_pos; lia | apply Z.div_lt_upper_bound; lia]).
    rewrite hex_digits_eq by lia.
    destruct (Z.ltb_spec (d / 16) 16); [reflexivity | lia].
Qed.

Lemma format_02X_byte (d : Z) :
  0 <= d < 256 ->
  format_02X d
  = String (hex_digit true (d / 16))
           (String (hex_digit true (d mod 16)) EmptyString).
Proof.
  intros Hd. unfold format_02X, sign_of.
  destruct (Z.ltb_spec d 0); [lia|].
  rewrite Z.abs_eq by lia. now apply hex_digits_byte.
Qed.

Lemma hex_digit_ascii (u : bool) (d : Z) :
  0 <= d < 16 -> (ord (hex_digit u d) <? 128) = true.
Proof. intros Hd. digit_cases d; destruct u; now vm_compute. Qed.


(** ** Decoding advertisements *)

Ltac decide_cmp :=
  repeat (match goal with
          | |- context [Z.eqb ?a ?b] => destruct (Z.eqb_spec a b); try lia
          | |- context [Z.leb ?a ?b] => destruct (Z.leb_spec a b); try lia
          | |- context [Z.ltb ?a ?b] => destruct (Z.ltb_spec a b); try lia
          end; cbn [andb orb negb]).

Lemma is_hex_char_cases (c : Z) :
  is_hex_char c = true ->
  48 <= c <= 57 \/ 65 <= c <= 70 \/ 97 <= c <= 102.
Proof. unfold is_hex_char. decide_cmp; intros; (lia || discriminate). Qed.

(** Two hexadecimal digits are read by [int(x, 16)] as the byte they
    spell. *)
Lemma int16_pair (h l : Z) :
  is_hex_char h = true -> is_hex_char l = true ->
  int16 [h; l] = Ok (hex_char_value h * 16 + hex_char_value l).
Proof.
  intros Hh Hl.
  apply is_hex_char_cases in Hh. apply is_hex_char_cases in Hl.
  unfold int16, PyLong_FromString16.
  cbn [skip_space]. unfold Py_ISSPACE.
  destruct Hh as [Hh|[Hh|Hh]], Hl as [Hl|[Hl|Hl]];
    decide_cmp; cbn [scan_digits skip_space]; unfold _PyLong_DigitValue, Py_ISSPACE, hex_char_value;
    decide_cmp; cbn [scan_digits skip_space]; unfold _PyLong_DigitValue, Py_ISSPACE, hex_char_value;
    decide_cmp; cbn [scan_digits skip_space]; f_equal; lia.
Qed.

Lemma slices_of_tail (front : bytes) (b1 b2 p1 p2 l1 l2 : Z) :
  let barray := (front ++ [b1; b2; p1; p2; l1; l2])%list in
  slice barray (Some (-6)) (Some (-4)) = [b1; b2]
  /\ slice barray (Some (-4)) (Some (-2)) = [p1; p2]
  /\ slice barray (Some (-2)) None = [l1; l2].
Proof.
  cbv zeta. unfold slice, adjust_index. rewrite length_app. cbn [List.length].
  change (-6 <? 0) with true. change (-4 <? 0) with true.
  change (-2 <? 0) with true. cbv iota.
  set (n := List.length front).
  replace (Z.to_nat (Z.max (-6 + Z.of_nat (n + 6)) 0)) with (n + 0)%nat by lia.
  replace (Z.to_nat (Z.max (-4 + Z.of_nat (n + 6)) 0)) with (n + 2)%nat by lia.
  replace (Z.to_nat (Z.max (-2 + Z.of_nat (n + 6)) 0)) with (n + 4)%nat by lia.
  replace (Z.to_nat (Z.max (-4 + Z.of_nat (n + 6)) 0
                     - Z.max (-6 + Z.of_nat (n + 6)) 0)) with 2%nat by lia.
  replace (Z.to_nat (Z.max (-2 + Z.of_nat (n + 6)) 0
                     - Z.max (-4 + Z.of_nat (n + 6)) 0)) with 2%nat by lia.
  replace (Z.to_nat (Z.of_nat (n + 6) - Z.max (-2 + Z.of_nat (n + 6)) 0))
    with 2%nat by lia.
  subst n. rewrite !skipn_app.
  assert (E : forall k, skipn (List.length front + k) front = [])
    by (intros k; apply skipn_all2; lia).
  rewrite !E.
  replace (List.length front + 0 - List.length front)%nat with 0%nat by lia.
  replace (List.length front + 2 - List.length front)%nat with 2%nat by lia.
  replace (List.length front + 4 - List.length front)%nat with 4%nat by lia.
  repeat split.
Qed.

Lemma for_scan_data_other (data : list (Z * string * string))
      (driver : SwitchbotCurtain) :
  (forall e, In e data -> fst (fst e) <> 22) ->
  for_scan_data data driver = (Ok tt, driver).
Proof.
  induction data as [|[[adtype desc] value] data IH]; intros H; [reflexivity|].
  cbn [for_scan_data].
  destruct (Z.eqb_spec adtype 22) as [->|_].
  - exfalso. apply (H (22, desc, value)); [now left | reflexivity].
  - apply IH. intros e He. apply H. now right.
Qed.

Lemma for_scan_data_first (pre post : list (Z * string * string))
      (desc value : string) (driver : SwitchbotCurtain) :
  (forall e, In e pre -> fst (fst e) <> 22) ->
  for_scan_data (pre ++ (22, desc, value) :: post) driver
  = (decode_into value ;; for_scan_data post) driver.
Proof.
  induction pre as [|[[adtype d] v] pre IH]; intros H; [reflexivity|].
  cbn [for_scan_data app].
  destruct (Z.eqb_spec adtype 22) as [->|_].
  - exfalso. apply (H (22, d, v)); [now left | reflexivity].
  - apply IH. intros e He. apply H. now right.
Qed.

(** Frames of other devices leave the curtain alone. *)
Lemma other_address_ignored
      (driver : SwitchbotCurtain) (dev : ScanEntry)
      (isNewDev isNewData : bool) :
  String.eqb (lower (get_mac (base driver))) (lower (addr dev)) = false ->
  handleDiscovery dev isNewDev isNewData driver = (Ok tt, driver).
Proof. intros H. unfold handleDiscovery, bind, get. now rewrite H. Qed.

(** C8.  A frame from the device's own address (compared without regard to
    case) whose type-22 buffer ends in six hexadecimal digits overwrites the
    three cached fields: the battery with the byte spelled by characters
    [-6:-4], the position with [-4:-2], the light level with [-2:]. *)
Theorem advertisement_decoded
        (driver : SwitchbotCurtain) (dev : ScanEntry)
        (isNewDev isNewData : bool) (pre post : list (Z * string * string))
        (desc value : string) (front : bytes) (b1 b2 p1 p2 l1 l2 : Z) :
  String.eqb (lower (get_mac (base driver))) (lower (addr dev)) = true ->
  getScanData dev = (pre ++ (22, desc, value) :: post)%list ->
  (forall e, In e (pre ++ post) -> fst (fst e) <> 22) ->
  encode_ascii value = Ok (front ++ [b1; b2; p1; p2; l1; l2])%list ->
  forallb is_hex_char [b1; b2; p1; p2; l1; l2] = true ->
  exists driver',
    handleDiscovery dev isNewDev isNewData driver = (Ok tt, driver')
    /\ get_battery_percent driver' = hex_char_value b1 * 16 + hex_char_value b2
    /\ get_position driver' = hex_char_value p1 * 16 + hex_char_value p2
    /\ get_light_level driver' = hex_char_value l1 * 16 + hex_char_value l2
    /\ base driver' = base driver
    /\ is_reversed driver' = is_reversed driver.
Proof.
  intros Hmac Hdata Hother Henc Hhex.
  cbn [forallb] in Hhex.
  repeat (apply andb_prop in Hhex; destruct Hhex as [? Hhex]).
  destruct (slices_of_tail front b1 b2 p1 p2 l1 l2) as (S1 & S2 & S3).
  unfold handleDiscovery, bind at 1, get. rewrite Hmac, Hdata.
  rewrite for_scan_data_first
    by (intros e He; apply Hother, in_or_app; now left).
  unfold bind at 1, decode_into. rewrite Henc, S1, S2, S3.
  rewrite !int16_pair by assumption.
  unfold bind, modify. cbv beta iota.
  rewrite for_scan_data_other
    by (intros e He; apply Hother, in_or_app; now right).
  eexists. split; [reflexivity|]. repeat split.
Qed.

Lemma advertisement_decoded_witness :
  exists driver',
    handleDiscovery (frame_of "0d00321E32") true true (sample_curtain false)
    = (Ok tt, driver')
    /\ get_battery_percent driver' = 50
    /\ get_position driver' = 30
    /\ get_light_level driver' = 50.
Proof.
  destruct (advertisement_decoded (sample_curtain false)
              (frame_of "0d00321E32") true true
              [(1, "Flags"%string, "06"%string)] []
              "16b Service Data" "0d00321E32" (ords "0d00")
              51 50 49 69 51 50
              eq_refl eq_refl) as (driver' & E & Hb & Hp & Hl & _).
  - intros e [<-|[]]. discriminate.
  - reflexivity.
  - reflexivity.
  - exists driver'. repeat split; assumption.
Defined.

Lemma int16_raises (x : bytes) (e : exn) : int16 x = Raise e -> e = ValueError.
Proof. unfold int16. destruct (PyLong_FromString16 x); congruence. Qed.

(** With at most four characters the slice [-6:-4] is empty, and the empty
    string is no number. *)
Lemma short_buffer_rejected (barray : bytes) :
  (List.length barray <= 4)%nat ->
  int16 (slice barray (Some (-6)) (Some (-4))) = Raise ValueError.
Proof.
  intros H. unfold slice, adjust_index.
  change (-6 <? 0) with true. change (-4 <? 0) with true. cbv iota.
  replace (Z.to_nat (Z.max (-4 + Z.of_nat (List.length barray)) 0
                     - Z.max (-6 + Z.of_nat (List.length barray)) 0))
    with 0%nat by lia.
  reflexivity.
Qed.

(** C1, as the driver has it.  A frame from the device's own address whose
    type-22 buffer the decoder rejects (the buffer has at most four
    characters, or [int(x, 16)] rejects one of the slices [-6:-4], [-4:-2],
    [-2:]) is not dropped: [handleDiscovery] raises [ValueError], nothing in
    the driver catches it, and [update] ends with it without handling the
    entries that follow.  The fields decoded before the rejected slice stay
    overwritten; the others keep their values. *)
Theorem rejected_frame_raises
        (driver : SwitchbotCurtain) (dev : ScanEntry)
        (isNewDev isNewData : bool) (pre post : list (Z * string * string))
        (desc value : string) (barray : bytes)
        (rest : list (ScanEntry * bool * bool)) :
  String.eqb (lower (get_mac (base driver))) (lower (addr dev)) = true ->
  getScanData dev = (pre ++ (22, desc, value) :: post)%list ->
  (forall e, In e pre -> fst (fst e) <> 22) ->
  encode_ascii value = Ok barray ->
  (List.length barray <= 4)%nat
  \/ int16 (slice barray (Some (-6)) (Some (-4))) = Raise ValueError
  \/ int16 (slice barray (Some (-4)) (Some (-2))) = Raise ValueError
  \/ int16 (slice barray (Some (-2)) None) = Raise ValueError ->
  exists driver',
    handleDiscovery dev isNewDev isNewData driver = (Raise ValueError, driver')
    /\ update ((dev, isNewDev, isNewData) :: rest) driver
       = (Raise ValueError, driver')
    /\ driver'
       = match int16 (slice barray (Some (-6)) (Some (-4))),
               int16 (slice barray (Some (-4)) (Some (-2))) with
         | Ok b, Ok p => with_pos p (with_battery_percent b driver)
         | Ok b, Raise _ => with_battery_percent b driver
         | Raise _, _ => driver
         end.
Proof.
  intros Hmac Hdata Hpre Henc Hbad.
  assert (Hbad' :
            int16 (slice barray (Some (-6)) (Some (-4))) = Raise ValueError
            \/ int16 (slice barray (Some (-4)) (Some (-2))) = Raise ValueError
            \/ int16 (slice barray (Some (-2)) None) = Raise ValueError).
  { destruct Hbad as [Hshort|Hbad]; [left|exact Hbad].
    now apply short_buffer_rejected. }
  clear Hbad.
  assert (E : exists driver',
             handleDiscovery dev isNewDev isNewData driver
             = (Raise ValueError, driver')
             /\ driver'
                = match int16 (slice barray (Some (-6)) (Some (-4))),
                        int16 (slice barray (Some (-4)) (Some (-2))) with
                  | Ok b, Ok p => with_pos p (with_battery_percent b driver)
                  | Ok b, Raise _ => with_battery_percent b driver
                  | Raise _, _ => driver
                  end).
  { unfold handleDiscovery, bind at 1, get. rewrite Hmac, Hdata.
    rewrite (for_scan_data_first _ _ _ _ _ Hpre).
    unfold bind at 1, decode_into. rewrite Henc.
    destruct (int16 (slice barray (Some (-6)) (Some (-4)))) as [b|e1] eqn:E1.
    - destruct (int16 (slice barray (Some (-4)) (Some (-2)))) as [p|e2] eqn:E2.
      + destruct (int16 (slice barray (Some (-2)) None)) as [l|e3] eqn:E3.
        * destruct Hbad' as [H|[H|H]]; discriminate.
        * apply int16_raises in E3. subst e3.
          eexists. split; reflexivity.
      + apply int16_raises in E2. subst e2. eexists. split; reflexivity.
    - apply int16_raises in E1. subst e1. eexists. split; reflexivity. }
  destruct E as (driver' & E & Hd). exists driver'.
  split; [exact E|]. split; [|exact Hd].
  cbn [update]. unfold bind. now rewrite E.
Qed.

Lemma rejected_frame_raises_witness :
  handleDiscovery (frame_of "0d0032zz32") true false (sample_curtain false)
  = (Raise ValueError, with_battery_percent 50 (sample_curtain false)).
Proof.
  destruct (rejected_frame_raises (sample_curtain false)
              (frame_of "0d0032zz32") true false
              [(1, "Flags"%string, "06"%string)] []
              "16b Service Data" "0d0032zz32" (ords "0d0032zz32") []
              eq_refl eq_refl) as (driver' & E & _ & Hd).
  - intros e [<-|[]]. discriminate.
  - reflexivity.
  - right. right. left. reflexivity.
  - rewrite E, Hd. reflexivity.
Defined.

(** C1, as stated, fails.  Each of these three type-22 buffers is malformed
    and its frame comes from the device's own address.  The first is too
    short and makes [handleDiscovery] raise; the second has a bad middle
    pair and raises after the battery field has been overwritten; the third
    has five characters and is decoded, overwriting all three fields. *)
Lemma malformed_frame_not_discarded :
  (malformed (ords "1e32") = true
   /\ handleDiscovery (frame_of "1e32") true false (sample_curtain false)
      = (Raise ValueError, sample_curtain false)
   /\ ~ discarded_silently (frame_of "1e32") (sample_curtain false))
  /\ (malformed (ords "0d0032zz32") = true
      /\ handleDiscovery (frame_of "0d0032zz32") true false
                         (sample_curtain false)
         = (Raise ValueError, with_battery_percent 50 (sample_curtain false))
      /\ ~ discarded_silently (frame_of "0d0032zz32") (sample_curtain false))
  /\ (malformed (ords "a1e32") = true
      /\ handleDiscovery (frame_of "a1e32") true false (sample_curtain false)
         = (Ok tt,
            with_light_level 50
              (with_pos 30 (with_battery_percent 10 (sample_curtain false))))
      /\ ~ discarded_silently (frame_of "a1e32") (sample_curtain false)).
Proof.
  repeat split; try reflexivity;
    intros H; specialize (H true false); vm_compute in H; discriminate.
Qed.

(** * Further properties of the driver *)

(** ** What any run of [_sendcommand] does *)

Lemma with_device_twice (d d' : option Peripheral) (self : SwitchbotDevice) :
  with_device d (with_device d' self) = with_device d self.
Proof. reflexivity. Qed.

(** One attempt, whatever the peripheral does. *)
Lemma send_once_summary (T : transport) (command : string) (s : St) :
  exists r s' new,
    send_once T command s = (r, s')
    /\ added s s' new
    /\ self_ s' = with_device None (self_ s)
    /\ within_budget 0 r new.
Proof.
  destruct s as [[i m d rc pw] [n tr]]. unfold added, within_budget.
  cbv [send_once try_finally try_except _connect _writekey _disconnect
       bind get script emit set_device next_attempt modify ret raise
       _device self_ env attempt_no trace with_device is_BTLEException].
  destruct d, (connect_ok (T n)), (lookup_ok (T n)),
    (a2b_hex command) as [data|[]], (write_res (T n)), (disconnect_ok (T n));
    cbv beta iota;
    (eexists _, _, _; split; [reflexivity|];
     split; [rewrite <- ?app_assoc; reflexivity|];
     split; [reflexivity|]; cbn; repeat split; try lia).
Qed.

Lemma within_budget_stop (budget : nat) (r1 r : result bool)
      (new : list event) :
  within_budget 0 r1 new -> acks_of r = acks_of r1 ->
  within_budget budget r new.
Proof.
  unfold within_budget. intros (? & ? & ? & ? & ? & Ha) Hr.
  rewrite Hr. repeat split; try lia; exact Ha.
Qed.

Lemma within_budget_step (budget : nat) (r : result bool)
      (new1 new2 : list event) :
  within_budget 0 (Ok false) new1 -> within_budget budget r new2 ->
  within_budget (S budget) r (new1 ++ EvSleep :: new2).
Proof.
  unfold within_budget.
  intros (? & ? & ? & ? & ? & Ha1) (? & ? & ? & ? & ? & Ha2).
  change (EvSleep :: new2) with ([EvSleep] ++ new2)%list.
  rewrite !count_app. cbn in *. repeat split; try lia.
Qed.

Lemma sendcommand_rec_summary (T : transport) (gas : nat) :
  forall (key : string) (retry : Z) (s : St),
  exists r s' new,
    _sendcommand_rec T gas key retry s = (r, s')
    /\ added s s' new
    /\ self_ s' = with_device None (self_ s)
    /\ within_budget (Z.to_nat retry) r new.
Proof.
  induction gas as [|g IH]; intros key retry s; cbn [_sendcommand_rec];
    unfold _sendcommand_body, bind, get;
    destruct (send_once_summary T (_commandkey (self_ s) key) s)
      as (r1 & s1 & new1 & E & Ha & Hs & Hb); rewrite E;
    destruct r1 as [[|]|e].
  1,3,4,6: (eexists _, _, new1; split; [reflexivity|];
            split; [exact Ha|]; split; [exact Hs|];
            now apply (within_budget_stop _ _ _ _ Hb)).
  - destruct (Z.ltb_spec retry 1).
    + eexists _, _, new1. split; [reflexivity|].
      split; [exact Ha|]. split; [exact Hs|].
      now apply (within_budget_stop _ _ _ _ Hb).
    + unfold sleep, emit, modify, ret.
      eexists _, _, (new1 ++ EvSleep :: [])%list. split; [reflexivity|].
      split; [unfold added in *; cbn; rewrite Ha; now rewrite <- app_assoc|].
      split; [exact Hs|].
      replace (Z.to_nat retry) with (S (Z.to_nat (retry - 1))) by lia.
      apply within_budget_step; [exact Hb|].
      unfold within_budget. cbn. repeat split; try lia.
  - destruct (Z.ltb_spec retry 1).
    + eexists _, _, new1. split; [reflexivity|].
      split; [exact Ha|]. split; [exact Hs|].
      now apply (within_budget_stop _ _ _ _ Hb).
    + unfold sleep, emit, modify. cbv beta iota.
      match goal with |- context [_sendcommand_rec T g key (retry - 1) ?x] =>
        destruct (IH key (retry - 1) x) as (r & s' & new2 & E2 & Ha2 & Hs2 & Hb2)
      end.
      rewrite E2. eexists _, _, (new1 ++ EvSleep :: new2)%list.
      split; [reflexivity|].
      split; [unfold added in *; cbn in Ha2; rewrite Ha2, Ha;
              now rewrite <- !app_assoc|].
      split; [rewrite Hs2; cbn [self_]; rewrite Hs; apply with_device_twice|].
      replace (Z.to_nat retry) with (S (Z.to_nat (retry - 1))) by lia.
      now apply within_budget_step.
Qed.

(** X1.  Whatever the peripheral does and whatever state the instance is
    in, a call of [_sendcommand] with budget [retry] opens at most
    [max retry 0 + 1] connections, writes and disconnects at most that
    often, and pauses at most [max retry 0] times. *)
Theorem sendcommand_attempts_bounded
        (T : transport) (key : string) (retry : Z) (s : St) :
  exists r s' new,
    _sendcommand T key retry s = (r, s')
    /\ added s s' new
    /\ Z.of_nat (count is_connect new) <= Z.max retry 0 + 1
    /\ Z.of_nat (count is_write new) <= Z.max retry 0 + 1
    /\ Z.of_nat (count is_disconnect new) <= Z.max retry 0 + 1
    /\ Z.of_nat (count is_sleep new) <= Z.max retry 0.
Proof.
  destruct (sendcommand_rec_summary T (Z.to_nat retry) key retry s)
    as (r & s' & new & E & Ha & _ & (Hc & _ & Hw & Hd & Hs & _)).
  exists r, s', new. split; [exact E|]. split; [exact Ha|].
  repeat split; lia.
Qed.

(** X2.  [_sendcommand] returns [True] exactly when a write was
    acknowledged, and it never writes again after an acknowledged write:
    a run that returns [True] holds one acknowledged write, a run that
    returns [False] or raises holds none. *)
Theorem sendcommand_true_iff_acknowledged
        (T : transport) (key : string) (retry : Z) (s : St) :
  exists r s' new,
    _sendcommand T key retry s = (r, s')
    /\ added s s' new
    /\ (r = Ok true /\ count is_acked new = 1%nat
        \/ r <> Ok true /\ count is_acked new = 0%nat).
Proof.
  destruct (sendcommand_rec_summary T (Z.to_nat retry) key retry s)
    as (r & s' & new & E & Ha & _ & (_ & _ & _ & _ & _ & Hk)).
  exists r, s', new. split; [exact E|]. split; [exact Ha|].
  destruct r as [[|]|e]; cbn in Hk; [left | right ..]; split;
    (reflexivity || discriminate || exact Hk).
Qed.

(** ** A peripheral that cannot be reached *)

Lemma send_once_refused (T : transport) (command : string) (s : St) :
  _device (self_ s) = None ->
  connect_ok (T (attempt_no (env s))) = false ->
  send_once T command s = (Ok false, later s 1 [EvConnect false]).
Proof.
  destruct s as [[i m d rc pw] [n tr]]. cbn. intros -> Hc.
  cbv [send_once try_finally try_except _connect _writekey _disconnect
       bind get script emit set_device next_attempt modify ret raise later
       _device self_ env attempt_no trace with_device is_BTLEException].
  rewrite Hc. cbv iota beta. now rewrite Nat.add_1_r.
Qed.

Lemma refused_counts (k : nat) :
  count is_connect (refused (S k)) = S k
  /\ count is_sleep (refused (S k)) = k
  /\ count is_lookup (refused (S k)) = 0%nat
  /\ count is_write (refused (S k)) = 0%nat
  /\ count is_disconnect (refused (S k)) = 0%nat.
Proof.
  induction k as [|k (Hc & Hs & Hl & Hw & Hd)]; [now cbn|].
  change (refused (S (S k)))
    with ([EvConnect false; EvSleep] ++ refused (S k))%list.
  rewrite !count_app, Hc, Hs, Hl, Hw, Hd. now cbn.
Qed.

Lemma sendcommand_refused (T : transport) (key : string) (k : nat) :
  forall s,
    _device (self_ s) = None ->
    (forall i, (i <= k)%nat -> connect_fails (T (attempt_no (env s) + i)%nat)) ->
    _sendcommand T key (Z.of_nat k) s
    = (Ok false, later s (S k) (refused (S k))).
Proof.
  induction k as [|k IH]; intros s Hd Hf;
    rewrite sendcommand_unfold; unfold _sendcommand_body, bind, get;
    pose proof (Hf 0%nat ltac:(lia)) as H0; rewrite Nat.add_0_r in H0;
    rewrite (send_once_refused T _ s Hd H0).
  - reflexivity.
  - destruct (Z.ltb_spec (Z.of_nat (S k)) 1); [lia|].
    unfold sleep, emit, modify. cbv beta iota.
    replace (Z.of_nat (S k) - 1) with (Z.of_nat k) by lia.
    match goal with |- _sendcommand T key _ ?x = _ => set (s2 := x) end.
    assert (Hn : attempt_no (env s2) = S (attempt_no (env s)))
      by (cbn; lia).
    assert (Hs : self_ s2 = self_ s) by (cbn; now apply with_device_None).
    rewrite (IH s2).
    + f_equal. unfold later. rewrite Hs, Hn. f_equal. f_equal; [lia|].
      cbn [trace env s2 later]. rewrite <- !app_assoc. reflexivity.
    + now rewrite Hs.
    + intros i Hi. rewrite Hn.
      replace (S (attempt_no (env s)) + i)%nat
        with (attempt_no (env s) + S i)%nat by lia.
      apply Hf. lia.
Qed.

(** X3.  When the connection cannot be opened on any of the [retry + 1]
    attempts, [_sendcommand] returns [False] for every key, also one that is
    no hexadecimal string: it tries to connect [retry + 1] times with
    [retry] pauses, and never looks up the characteristic, writes or
    disconnects. *)
Theorem sendcommand_unreachable
        (T : transport) (key : string) (retry : Z) (s : St) :
  _device (self_ s) = None ->
  0 <= retry ->
  (forall i, (i <= Z.to_nat retry)%nat ->
             connect_fails (T (attempt_no (env s) + i)%nat)) ->
  exists s' new,
    _sendcommand T key retry s = (Ok false, s')
    /\ self_ s' = self_ s /\ added s s' new
    /\ Z.of_nat (count is_connect new) = retry + 1
    /\ Z.of_nat (count is_sleep new) = retry
    /\ count is_lookup new = 0%nat
    /\ count is_write new = 0%nat
    /\ count is_disconnect new = 0%nat.
Proof.
  intros Hd Hr Hf.
  exists (later s (S (Z.to_nat retry)) (refused (S (Z.to_nat retry)))),
         (refused (S (Z.to_nat retry))).
  split.
  - rewrite <- (sendcommand_refused T key (Z.to_nat retry) s Hd Hf).
    now rewrite Z2Nat.id.
  - split; [now apply later_self|]. split; [reflexivity|].
    destruct (refused_counts (Z.to_nat retry)) as (-> & -> & -> & -> & ->).
    repeat split; lia.
Qed.

Lemma sendcommand_unreachable_witness :
  exists s',
    _sendcommand unreachable "not hexadecimal" 3
                 {| self_ := sample_device; env := fresh_world |}
    = (Ok false, s').
Proof.
  destruct (sendcommand_unreachable unreachable "not hexadecimal" 3
              {| self_ := sample_device; env := fresh_world |}
              eq_refl ltac:(lia) ltac:(intros i _; reflexivity))
    as (s' & new & E & _).
  now exists s'.
Defined.

(** ** Keys that are no hexadecimal string *)

Lemma a2b_hex_raises (hexstr : string) (e : exn) :
  a2b_hex hexstr = Raise e -> is_BTLEException e = false.
Proof.
  unfold a2b_hex.
  destruct (negb (is_ascii hexstr)); [now intros [= <-]|].
  destruct (Nat.odd (String.length hexstr)); [now intros [= <-]|].
  destruct (unhexlify (ords hexstr)); [discriminate | now intros [= <-]].
Qed.

Lemma send_once_undecodable (T : transport) (command : string) (e : exn)
      (s : St) :
  _device (self_ s) = None ->
  connect_ok (T (attempt_no (env s))) = true ->
  lookup_ok (T (attempt_no (env s))) = true ->
  a2b_hex command = Raise e ->
  send_once T command s
  = (Raise e,
     later s 1 [EvConnect true; EvLookup true;
                EvDisconnect (disconnect_ok (T (attempt_no (env s))))]).
Proof.
  destruct s as [[i m d rc pw] [n tr]]. cbn. intros -> Hc Hl Ha.
  pose proof (a2b_hex_raises _ _ Ha) as He.
  cbv [send_once try_finally try_except _connect _writekey _disconnect
       bind get script emit set_device next_attempt modify ret raise later
       _device self_ env attempt_no trace with_device].
  rewrite Hc. cbv iota beta. rewrite Hl, Ha. cbv iota beta. rewrite He.
  destruct (disconnect_ok (T n)); cbn;
    rewrite <- ?app_assoc, Nat.add_1_r; reflexivity.
Qed.

Lemma undecodable_key_escapes_gen
      (T : transport) (key : string) (retry : Z) (e : exn) (s : St) :
  _device (self_ s) = None ->
  connect_ok (T (attempt_no (env s))) = true ->
  lookup_ok (T (attempt_no (env s))) = true ->
  a2b_hex (_commandkey (self_ s) key) = Raise e ->
  _sendcommand T key retry s
  = (Raise e,
     later s 1 [EvConnect true; EvLookup true;
                EvDisconnect (disconnect_ok (T (attempt_no (env s))))]).
Proof.
  intros Hd Hc Hl Ha. rewrite sendcommand_unfold.
  unfold _sendcommand_body, bind, get.
  now rewrite (send_once_undecodable T _ e s Hd Hc Hl Ha).
Qed.

(** X4.  A key that [a2b_hex] rejects is not retried: once the connection
    is open and the characteristic found, the exception of [a2b_hex], which
    is no [BTLEException], leaves [_sendcommand] whatever the budget.  The
    call connects once, writes nothing, disconnects once, does not pause,
    and leaves no handle stored. *)
Theorem undecodable_key_escapes
        (T : transport) (key : string) (retry : Z) (e : exn) (s : St) :
  _device (self_ s) = None ->
  connect_ok (T (attempt_no (env s))) = true ->
  lookup_ok (T (attempt_no (env s))) = true ->
  a2b_hex (_commandkey (self_ s) key) = Raise e ->
  exists s' new,
    _sendcommand T key retry s = (Raise e, s')
    /\ is_BTLEException e = false
    /\ self_ s' = self_ s /\ added s s' new
    /\ count is_connect new = 1%nat
    /\ count is_write new = 0%nat
    /\ count is_disconnect new = 1%nat
    /\ count is_sleep new = 0%nat.
Proof.
  intros Hd Hc Hl Ha. eexists _, _. split.
  - now apply undecodable_key_escapes_gen.
  - split; [now apply (a2b_hex_raises _ _ Ha)|].
    split; [now apply later_self|]. split; [reflexivity|].
    now cbn.
Qed.

Lemma undecodable_key_escapes_witness :
  fst (_sendcommand reachable "570" 3
                    {| self_ := sample_device; env := fresh_world |})
  = Raise binascii_Error.
Proof.
  destruct (undecodable_key_escapes reachable "570" 3 binascii_Error
              {| self_ := sample_device; env := fresh_world |}
              eq_refl eq_refl eq_refl eq_refl) as (s' & new & E & _).
  now rewrite E.
Defined.

(** ** Encoded passwords with an odd number of digits *)

Lemma is_ascii_app (a b : string) :
  is_ascii (a ++ b) = is_ascii a && is_ascii b.
Proof. unfold is_ascii. now rewrite ords_app, forallb_app. Qed.

Lemma lower_hex_is_ascii (l : bytes) :
  forallb is_lower_hex_char l = true -> forallb (fun c => c <? 128) l = true.
Proof.
  induction l as [|c l IH]; [reflexivity|]. cbn [forallb].
  intros H. apply andb_prop in H. destruct H as [Hc Hl].
  rewrite (IH Hl), andb_true_r. revert Hc. unfold is_lower_hex_char.
  decide_cmp; intros; (reflexivity || discriminate).
Qed.

Lemma odd_password_key_undecodable (self : SwitchbotDevice) (n : Z)
      (key : string) :
  0 <= n ->
  _password_encoded self = Some (format_x n) ->
  Nat.odd (String.length (format_x n)) = true ->
  a2b_hex (_commandkey self key) = Raise binascii_Error.
Proof.
  intros Hn Hpw Hodd. unfold _commandkey. rewrite Hpw.
  set (sfx := if String.eqb key ON_KEY then ON_KEY_SUFFIX
              else if String.eqb key OFF_KEY then OFF_KEY_SUFFIX
              else PRESS_KEY_SUFFIX).
  assert (Hs : is_ascii sfx = true /\ String.length sfx = 2%nat).
  { subst sfx. destruct (String.eqb key ON_KEY); [now split|].
    destruct (String.eqb key OFF_KEY); now split. }
  destruct Hs as [Hsa Hsl].
  assert (Hpa : is_ascii (format_x n) = true).
  { unfold is_ascii. apply lower_hex_is_ascii.
    rewrite format_x_nonneg by exact Hn. now apply hex_digits_lower. }
  unfold a2b_hex. rewrite !is_ascii_app, Hpa, Hsa.
  change (is_ascii KEY_PASSWORD_PREFIX) with true. cbn [andb negb].
  rewrite !string_length_app, Hsl.
  change (String.length KEY_PASSWORD_PREFIX) with 4%nat.
  replace (4 + (String.length (format_x n) + 2))%nat
    with (S (S (S (S (S (S (String.length (format_x n)))))))) by lia.
  change (Nat.odd (S (S (S (S (S (S (String.length (format_x n)))))))))
    with (Nat.odd (String.length (format_x n))).
  now rewrite Hodd.
Qed.

(** X5.  When the CRC-32 of the secret has an odd number of hexadecimal
    digits, no command can be sent with the device the constructor builds:
    the encoded command has odd length, so once the connection is open and
    the characteristic found every [_sendcommand] raises [binascii.Error]
    and nothing is written. *)
Theorem odd_password_never_sends
        (T : transport) (mac : string) (retry_count : Z)
        (interface : option Z) (secret : string) (d : SwitchbotDevice)
        (key : string) (retry : Z) (w : world) :
  SwitchbotDevice__init__ mac retry_count (Some secret) interface = Ok d ->
  secret <> EmptyString ->
  Nat.odd (String.length (format_x (crc32 (ords secret)))) = true ->
  connect_ok (T (attempt_no w)) = true ->
  lookup_ok (T (attempt_no w)) = true ->
  a2b_hex (_commandkey d key) = Raise binascii_Error
  /\ exists s',
       _sendcommand T key retry {| self_ := d; env := w |}
       = (Raise binascii_Error, s')
       /\ count is_write (trace (env s')) = count is_write (trace w).
Proof.
  intros Hinit Hne Hodd Hc Hl.
  apply String.eqb_neq in Hne.
  unfold SwitchbotDevice__init__, encode_ascii in Hinit. rewrite Hne in Hinit.
  destruct (is_ascii secret); [|discriminate].
  rewrite mask32_crc32 in Hinit. injection Hinit as <-.
  pose proof (crc32_below (ords secret)) as [Hn _].
  match goal with |- a2b_hex (_commandkey ?d key) = _ /\ _ =>
    assert (Ha : a2b_hex (_commandkey d key) = Raise binascii_Error)
      by (now apply (odd_password_key_undecodable d (crc32 (ords secret))))
  end.
  split; [exact Ha|]. eexists. split.
  - now apply undecodable_key_escapes_gen.
  - unfold later. cbn [trace env]. rewrite count_app. cbn. lia.
Qed.

Lemma odd_password_never_sends_witness :
  exists d,
    SwitchbotDevice__init__ "e7:4d:36:cf:9e:7a" 3 (Some "c"%string) None = Ok d
    /\ _password_encoded d = Some "6b9df6f"%string
    /\ fst (_sendcommand reachable PRESS_KEY 3
                         {| self_ := d; env := fresh_world |})
       = Raise binascii_Error.
Proof.
  eexists. split; [reflexivity|]. split; [reflexivity|].
  destruct (odd_password_never_sends reachable "e7:4d:36:cf:9e:7a" 3 None "c"
              _ PRESS_KEY 3 fresh_world eq_refl
              ltac:(discriminate) eq_refl eq_refl eq_refl)
    as (_ & s' & E & _).
  now rewrite E.
Defined.

(** ** The commands of a Switchbot *)

(** X6.  On a device without password [turn_on], [turn_off] and [press]
    write the bytes [57 01 01], [57 01 02] and [57 01 00].  When the write
    is left unacknowledged [N] times and then acknowledged, and the
    configured retry count is at least [N], each of them returns [True]
    after [N + 1] attempts that all carry the same three bytes. *)
Theorem switchbot_commands_write
        (T : transport) (N : nat) (s : St) :
  _device (self_ s) = None ->
  _password_encoded (self_ s) = None ->
  (forall i, (i < N)%nat -> write_fails (T (attempt_no (env s) + i)%nat)) ->
  write_succeeds (T (attempt_no (env s) + N)%nat) ->
  Z.of_nat N <= _retry_count (self_ s) ->
  let ran data :=
    (Ok true,
     later s (S N)
           (rounds T data (attempt_no (env s)) N
            ++ round T data (attempt_no (env s) + N)%nat)) in
  turn_on T s = ran [87; 1; 1]
  /\ turn_off T s = ran [87; 1; 2]
  /\ press T s = ran [87; 1; 0].
Proof.
  intros Hd Hpw Hf (Hc & Hl & Hw) Hr. cbv zeta.
  unfold turn_on, turn_off, press, bind, get.
  rewrite (sendcommand_run T ON_KEY [87; 1; 1] N), Hw;
    [|auto; unfold _commandkey; now rewrite Hpw ..].
  rewrite (sendcommand_run T OFF_KEY [87; 1; 2] N), Hw;
    [|auto; unfold _commandkey; now rewrite Hpw ..].
  rewrite (sendcommand_run T PRESS_KEY [87; 1; 0] N), Hw;
    [|auto; unfold _commandkey; now rewrite Hpw ..].
  repeat split.
Qed.

Lemma switchbot_commands_write_witness :
  fst (turn_on flaky_twice {| self_ := sample_device; env := fresh_world |})
  = Ok true
  /\ count is_write
       (trace (env (snd (press flaky_twice
                           {| self_ := sample_device; env := fresh_world |}))))
     = 3%nat.
Proof.
  assert (Hf : forall i, (i < 2)%nat ->
                 write_fails (flaky_twice (0 + i)%nat)).
  { intros [|[|i]] Hi; [repeat split; discriminate ..| lia]. }
  assert (Hs : write_succeeds (flaky_twice (0 + 2)%nat))
    by (repeat split).
  destruct (switchbot_commands_write flaky_twice 2
              {| self_ := sample_device; env := fresh_world |}
              eq_refl eq_refl Hf Hs
              ltac:(vm_compute; discriminate))
    as (Hon & _ & Hpress).
  rewrite Hon, Hpress. split; reflexivity.
Defined.

(** ** Positions outside 0..100 *)

Lemma a2b_hex_position_byte (d : Z) :
  0 <= d < 256 ->
  a2b_hex (POSITION_KEY ++ format_02X d) = Ok [87; 15; 69; 1; 5; 255; d].
Proof.
  intros Hd.
  assert (Hh : 0 <= d / 16 < 16)
    by (split; [apply Z.div_pos; lia | apply Z.div_lt_upper_bound; lia]).
  assert (Hl : 0 <= d mod 16 < 16) by (apply Z.mod_pos_bound; lia).
  rewrite (format_02X_byte d Hd).
  destruct (hex_digit_value true _ Hh) as (_ & Hp1 & _).
  destruct (hex_digit_value true _ Hl) as (_ & Hp2 & _).
  pose proof (hex_digit_ascii true _ Hh) as Ha1.
  pose proof (hex_digit_ascii true _ Hl) as Ha2.
  unfold a2b_hex, is_ascii. cbn. rewrite Ha1, Ha2. cbn.
  rewrite Hp1, Hp2.
  destruct (Z.ltb_spec (d / 16) 16); [|lia].
  destruct (Z.ltb_spec (d mod 16) 16); [|lia]. cbn.
  pose proof (Z.div_mod d 16 ltac:(lia)).
  do 8 f_equal. lia.
Qed.

(** A write acknowledged on the first attempt ends the call, whatever the
    budget. *)
Lemma sendcommand_first_ack (T : transport) (key : string) (data : bytes)
      (retry : Z) (s : St) :
  _device (self_ s) = None ->
  connect_ok (T (attempt_no (env s))) = true ->
  lookup_ok (T (attempt_no (env s))) = true ->
  write_res (T (attempt_no (env s))) = WriteAck ->
  a2b_hex (_commandkey (self_ s) key) = Ok data ->
  _sendcommand T key retry s
  = (Ok true, later s 1 (round T data (attempt_no (env s)))).
Proof.
  intros Hd Hc Hl Hw Ha. rewrite sendcommand_unfold.
  unfold _sendcommand_body, bind, get.
  rewrite (send_once_written T _ data s Hd Hc Hl Ha), Hw. reflexivity.
Qed.

Lemma inherited_run {A : Type} (m : M St A) (c : CSt) (r : result A)
      (s' : St) :
  m {| self_ := base (cself c); env := cenv c |} = (r, s') ->
  inherited m c
  = (r, {| cself := with_base (self_ s') (cself c); cenv := env s' |}).
Proof. intros H. unfold inherited. now rewrite H. Qed.

(** X7.  [set_position] does not check its argument against 0..100: every
    device-facing position from 0 to 255 is written as the last byte of the
    command.  On a curtain without password whose write is acknowledged at
    once, the call returns [True] after one attempt that writes
    [57 0F 45 01 05 FF] followed by that byte, and caches the position. *)
Theorem set_position_unchecked (T : transport) (st : CSt) (p : Z) :
  let d := if _reverse (cself st) then 100 - p else p in
  let n := attempt_no (cenv st) in
  0 <= d <= 255 ->
  _device (base (cself st)) = None ->
  _password_encoded (base (cself st)) = None ->
  write_succeeds (T n) ->
  exists st',
    set_position T p st = (Ok true, st')
    /\ get_position (cself st') = d
    /\ trace (cenv st')
       = (trace (cenv st)
          ++ [EvConnect true; EvLookup true;
              EvWrite [87; 15; 69; 1; 5; 255; d] WriteAck;
              EvDisconnect (disconnect_ok (T n))])%list.
Proof.
  intros d n Hd Hdev Hpw (Hc & Hl & Hw).
  set (c1 := {| cself := with_pos d (cself st); cenv := cenv st |}).
  change (set_position T p st)
    with (inherited (s <- get ;;
                     _sendcommand T (POSITION_KEY ++ format_02X d)%string
                                  (_retry_count (self_ s))) c1).
  assert (E : (s <- get ;;
               _sendcommand T (POSITION_KEY ++ format_02X d)%string
                            (_retry_count (self_ s)))
                {| self_ := base (cself c1); env := cenv c1 |}
              = (Ok true,
                 later {| self_ := base (cself c1); env := cenv c1 |} 1
                       (round T [87; 15; 69; 1; 5; 255; d] n))).
  { unfold bind, get.
    apply sendcommand_first_ack; cbn [self_ env c1 cself cenv with_pos base];
      fold n; auto.
    unfold _commandkey. rewrite Hpw. apply a2b_hex_position_byte. lia. }
  rewrite (inherited_run _ _ _ _ E). eexists. split; [reflexivity|].
  cbn. unfold round. rewrite Hw. split; reflexivity.
Qed.

Lemma set_position_unchecked_witness :
  exists st',
    set_position reachable 200
                 {| cself := sample_curtain false; cenv := fresh_world |}
    = (Ok true, st')
    /\ get_position (cself st') = 200
    /\ trace (cenv st')
       = [EvConnect true; EvLookup true;
          EvWrite [87; 15; 69; 1; 5; 255; 200] WriteAck; EvDisconnect true].
Proof.
  destruct (set_position_unchecked reachable
              {| cself := sample_curtain false; cenv := fresh_world |} 200
              ltac:(cbn; lia) eq_refl eq_refl ltac:(repeat split))
    as (st' & E & Hp & Ht).
  exists st'. repeat split; assumption.
Defined.

Lemma hex_digits_is_ascii (u : bool) (n : Z) :
  0 <= n -> is_ascii (hex_digits u n) = true.
Proof.
  intros Hn. generalize Hn. pattern n. apply Z_lt_induction; [|exact Hn].
  clear n Hn. intros n IH Hn.
  rewrite hex_digits_eq by exact Hn.
  destruct (Z.ltb_spec n 16).
  - unfold is_ascii. cbn. now rewrite hex_digit_ascii by lia.
  - assert (Hq : 0 <= n / 16 < n)
      by (split; [apply Z.div_pos; lia | apply Z.div_lt; lia]).
    rewrite is_ascii_app, IH by (exact Hq || lia).
    unfold is_ascii. cbn.
    now rewrite hex_digit_ascii by (apply Z.mod_pos_bound; lia).
Qed.

Lemma zeros_is_ascii (k : nat) : is_ascii (zeros k) = true.
Proof. induction k as [|k IH]; [reflexivity|]. exact IH. Qed.

(** A negative number is rendered with a minus sign, which is no
    hexadecimal digit. *)
Lemma a2b_hex_negative_position (d : Z) :
  d < 0 -> a2b_hex (POSITION_KEY ++ format_02X d) = Raise binascii_Error.
Proof.
  intros Hd. unfold format_02X, sign_of.
  destruct (Z.ltb_spec d 0); [|lia].
  set (digits := pad_digits 2 (hex_digits true (Z.abs d))).
  assert (Ha : is_ascii digits = true).
  { subst digits. unfold pad_digits.
    rewrite is_ascii_app, zeros_is_ascii, hex_digits_is_ascii by lia.
    reflexivity. }
  unfold a2b_hex. rewrite !is_ascii_app, Ha. cbn [negb andb is_ascii].
  change (is_ascii POSITION_KEY) with true.
  change (is_ascii "-") with true. cbn [negb andb].
  destruct (Nat.odd _); [reflexivity|].
  rewrite !ords_app.
  change (ords POSITION_KEY)
    with [53; 55; 48; 70; 52; 53; 48; 49; 48; 53; 102; 102].
  change (ords "-") with [45].
  cbn [app]. destruct (ords digits); reflexivity.
Qed.

(** X8.  A device-facing position below zero, as [set_position p] computes
    in reverse mode for [p] above 100, cannot be sent: on a curtain without
    password, once the connection is open and the characteristic found,
    [set_position] raises [binascii.Error] and writes nothing, yet the
    negative value is already the cached position. *)
Theorem set_position_negative_raises (T : transport) (st : CSt) (p : Z) :
  let d := if _reverse (cself st) then 100 - p else p in
  let n := attempt_no (cenv st) in
  d < 0 ->
  _device (base (cself st)) = None ->
  _password_encoded (base (cself st)) = None ->
  connect_ok (T n) = true ->
  lookup_ok (T n) = true ->
  exists st',
    set_position T p st = (Raise binascii_Error, st')
    /\ get_position (cself st') = d
    /\ trace (cenv st')
       = (trace (cenv st)
          ++ [EvConnect true; EvLookup true;
              EvDisconnect (disconnect_ok (T n))])%list.
Proof.
  intros d n Hd Hdev Hpw Hc Hl.
  set (c1 := {| cself := with_pos d (cself st); cenv := cenv st |}).
  change (set_position T p st)
    with (inherited (s <- get ;;
                     _sendcommand T (POSITION_KEY ++ format_02X d)%string
                                  (_retry_count (self_ s))) c1).
  assert (E : (s <- get ;;
               _sendcommand T (POSITION_KEY ++ format_02X d)%string
                            (_retry_count (self_ s)))
                {| self_ := base (cself c1); env := cenv c1 |}
              = (Raise binascii_Error,
                 later {| self_ := base (cself c1); env := cenv c1 |} 1
                       [EvConnect true; EvLookup true;
                        EvDisconnect (disconnect_ok (T n))])).
  { unfold bind, get.
    apply undecodable_key_escapes_gen;
      cbn [self_ env c1 cself cenv with_pos base]; fold n; auto.
    unfold _commandkey. rewrite Hpw. now apply a2b_hex_negative_position. }
  rewrite (inherited_run _ _ _ _ E). eexists. split; [reflexivity|].
  cbn. split; reflexivity.
Qed.

Lemma set_position_negative_raises_witness :
  exists st',
    set_position reachable 150
                 {| cself := sample_curtain true; cenv := fresh_world |}
    = (Raise binascii_Error, st')
    /\ get_position (cself st') = -50.
Proof.
  destruct (set_position_negative_raises reachable
              {| cself := sample_curtain true; cenv := fresh_world |} 150
              ltac:(cbn; lia) eq_refl eq_refl eq_refl eq_refl)
    as (st' & E & Hp & _).
  exists st'. split; assumption.
Defined.

(** ** What the curtain commands leave alone *)

(** X9.  No curtain command touches the cached battery percent, the cached
    light level or the reverse flag, and [stop] does not touch the cached
    position either, whatever the peripheral does and however the send
    ends. *)
Theorem curtain_commands_keep_readings (T : transport) (st : CSt) (p : Z) :
  let kept (m : M CSt bool) :=
    _battery_percent (cself (snd (m st))) = _battery_percent (cself st)
    /\ _light_level (cself (snd (m st))) = _light_level (cself st)
    /\ _reverse (cself (snd (m st))) = _reverse (cself st) in
  kept (open T) /\ kept (close T) /\ kept (stop T)
  /\ kept (set_position T p)
  /\ _pos (cself (snd (stop T st))) = _pos (cself st).
Proof.
  cbv zeta.
  unfold open, close, stop, set_position, bind, get, set_pos, modify.
  cbv beta iota.
  repeat match goal with
         | |- context [inherited ?f ?c] =>
             let H := fresh in
             pose proof (inherited_keeps_curtain f c) as H;
             destruct (inherited f c);
             cbn [snd cself cenv with_pos _battery_percent _light_level
                  _reverse _pos] in H
         end.
  intuition congruence.
Qed.

(** ** What a scan leaves alone *)

Lemma decode_into_keeps_identity (value : string) (driver : SwitchbotCurtain) :
  base (snd (decode_into value driver)) = base driver
  /\ _reverse (snd (decode_into value driver)) = _reverse driver.
Proof.
  unfold decode_into, bind, modify, raise.
  destruct (encode_ascii value) as [barray|e]; [|now split].
  destruct (int16 _) as [b|e]; [|now split].
  destruct (int16 _) as [q|e]; [|now split].
  destruct (int16 _) as [l|e]; now split.
Qed.

Lemma for_scan_data_keeps_identity (data : list (Z * string * string)) :
  forall driver,
    base (snd (for_scan_data data driver)) = base driver
    /\ _reverse (snd (for_scan_data data driver)) = _reverse driver.
Proof.
  induction data as [|[[adtype desc] value] data IH]; intros driver;
    [now split|].
  cbn [for_scan_data]. destruct (adtype =? 22); [|apply IH].
  unfold bind.
  pose proof (decode_into_keeps_identity value driver) as [Hb Hr].
  destruct (decode_into value driver) as [[u|e] d1]; cbn [snd] in *.
  - destruct (IH d1) as [Hb1 Hr1]. now rewrite Hb1, Hr1.
  - now split.
Qed.

Lemma handleDiscovery_keeps_identity (dev : ScanEntry)
      (isNewDev isNewData : bool) (driver : SwitchbotCurtain) :
  base (snd (handleDiscovery dev isNewDev isNewData driver)) = base driver
  /\ _reverse (snd (handleDiscovery dev isNewDev isNewData driver))
     = _reverse driver.
Proof.
  unfold handleDiscovery, bind, get.
  destruct (String.eqb _ _); [apply for_scan_data_keeps_identity | now split].
Qed.

(** X10.  Handling an advertisement, and a whole scan, only ever assign the
    three cached readings: the address, the password, the retry count, the
    connection handle and the reverse flag are as before, also when the
    handling ends with an exception. *)
Theorem scan_keeps_identity (heard : list (ScanEntry * bool * bool))
        (driver : SwitchbotCurtain) :
  (forall dev isNewDev isNewData,
      base (snd (handleDiscovery dev isNewDev isNewData driver)) = base driver
      /\ is_reversed (snd (handleDiscovery dev isNewDev isNewData driver))
         = is_reversed driver)
  /\ base (snd (update heard driver)) = base driver
  /\ is_reversed (snd (update heard driver)) = is_reversed driver.
Proof.
  split; [intros; apply handleDiscovery_keeps_identity|].
  unfold is_reversed. revert driver.
  induction heard as [|[[dev n1] n2] heard IH]; intros driver; [now split|].
  cbn [update]. unfold bind.
  pose proof (handleDiscovery_keeps_identity dev n1 n2 driver) as [Hb Hr].
  destruct (handleDiscovery dev n1 n2 driver) as [[u|e] d1]; cbn [snd] in *.
  - destruct (IH d1) as [Hb1 Hr1]. now rewrite Hb1, Hr1.
  - now split.
Qed.

(** X11.  A frame is ignored, that is handled without exception and
    without any assignment, when it carries no field of type 22, or when
    its address and the device's, both ASCII, differ after [lower()];
    whatever its other fields hold. *)
Theorem frame_ignored (dev : ScanEntry) (isNewDev isNewData : bool)
        (driver : SwitchbotCurtain) :
  (is_ascii (get_mac (base driver)) = true
   /\ is_ascii (addr dev) = true
   /\ String.eqb (lower (get_mac (base driver))) (lower (addr dev)) = false)
  \/ (forall e, In e (getScanData dev) -> fst (fst e) <> 22) ->
  handleDiscovery dev isNewDev isNewData driver = (Ok tt, driver).
Proof.
  intros [(_ & _ & H)|H].
  - now apply other_address_ignored.
  - unfold handleDiscovery, bind, get.
    destruct (String.eqb _ _); [now apply for_scan_data_other | reflexivity].
Qed.

Lemma frame_ignored_witness :
  handleDiscovery
    {| addr := "c1:22:33:44:55:66";
       getScanData := [(22, "16b Service Data"%string, "zz"%string)] |}
    true true (sample_curtain false)
  = (Ok tt, sample_curtain false)
  /\ handleDiscovery
       {| addr := "E7:4D:36:CF:9E:7A";
          getScanData := [(9, "Complete Local Name"%string, "WoCurtain"%string)] |}
       false true (sample_curtain false)
     = (Ok tt, sample_curtain false).
Proof.
  split.
  - apply frame_ignored. left. repeat split.
  - apply frame_ignored. right. intros e [<-|[]]. discriminate.
Defined.

(** ** The range of decoded readings *)

Lemma digit_value_range (c : Z) :
  _PyLong_DigitValue c < 16 -> 0 <= _PyLong_DigitValue c <= 15.
Proof. unfold _PyLong_DigitValue. decide_cmp; lia. Qed.

Ltac scan_cases :=
  repeat (progress
    (cbn [scan_digits skip_space]; unfold Py_ISSPACE; decide_cmp;
     try match goal with
         | |- context [_PyLong_DigitValue ?c <? 16] =>
             let H := fresh in
             destruct (Z.ltb_spec (_PyLong_DigitValue c) 16) as [H|H];
             [apply digit_value_range in H|]
         end)).

Ltac digit_bounds :=
  repeat match goal with
         | H : _PyLong_DigitValue ?c < 16 |- _ => apply digit_value_range in H
         end; lia.

(** What [int(x, 16)] can return for at most two characters: two digits
    give at most 255, a sign and a digit at least -15. *)
Lemma PyLong_short_bounds (x : bytes) :
  (List.length x <= 2)%nat ->
  match PyLong_FromString16 x with
  | Some z => -15 <= z <= 255
  | None => True
  end.
Proof.
  intros Hlen.
  destruct x as [|a [|b [|c x]]]; cbn in Hlen; try lia; clear Hlen.
  - exact I.
  - unfold PyLong_FromString16. cbn [skip_space]. unfold Py_ISSPACE.
    decide_cmp; try exact I; scan_cases; try exact I; digit_bounds.
  - unfold PyLong_FromString16. cbn [skip_space]. unfold Py_ISSPACE.
    decide_cmp; try exact I; scan_cases; try exact I; digit_bounds.
Qed.

Lemma slice_pair_length (barray : bytes) (i : Z) (stop : option Z) :
  stop = Some (i + 2) \/ (stop = None /\ i = -2) -> i < 0 ->
  (List.length (slice barray (Some i) stop) <= 2)%nat.
Proof.
  intros Hs Hi. unfold slice.
  etransitivity; [apply firstn_le_length|].
  unfold adjust_index. destruct (Z.ltb_spec i 0); [|lia].
  destruct Hs as [->|[-> ->]].
  - destruct (Z.ltb_spec (i + 2) 0); lia.
  - lia.
Qed.

Lemma int16_slice_bounds (barray : bytes) (i : Z) (stop : option Z) (v : Z) :
  stop = Some (i + 2) \/ (stop = None /\ i = -2) -> i < 0 ->
  int16 (slice barray (Some i) stop) = Ok v -> -15 <= v <= 255.
Proof.
  intros Hs Hi. unfold int16.
  pose proof (PyLong_short_bounds _ (slice_pair_length barray i stop Hs Hi)) as H.
  destruct (PyLong_FromString16 _); [|discriminate].
  now intros [= <-].
Qed.

(** X13.  When a frame from the device's own address with one type-22
    field is handled without exception, each of the three cached readings
    lies between -15 and 255: a pair is read by [int(x, 16)], which takes
    two digits up to [ff] and also a signed digit down to [-f].  Nothing
    keeps the battery percent or the position within 0..100. *)
Theorem decoded_readings_bounded
        (driver driver' : SwitchbotCurtain) (dev : ScanEntry)
        (isNewDev isNewData : bool) (pre post : list (Z * string * string))
        (desc value : string) :
  String.eqb (lower (get_mac (base driver))) (lower (addr dev)) = true ->
  getScanData dev = (pre ++ (22, desc, value) :: post)%list ->
  (forall e, In e (pre ++ post) -> fst (fst e) <> 22) ->
  handleDiscovery dev isNewDev isNewData driver = (Ok tt, driver') ->
  -15 <= get_battery_percent driver' <= 255
  /\ -15 <= get_position driver' <= 255
  /\ -15 <= get_light_level driver' <= 255.
Proof.
  intros Hmac Hdata Hother.
  unfold handleDiscovery, bind at 1, get. rewrite Hmac, Hdata.
  rewrite for_scan_data_first
    by (intros e He; apply Hother, in_or_app; now left).
  unfold bind at 1, decode_into.
  destruct (encode_ascii value) as [barray|e]; [|discriminate].
  destruct (int16 (slice barray (Some (-6)) (Some (-4)))) as [b|e] eqn:Eb;
    [|discriminate].
  unfold bind at 1, modify at 1.
  destruct (int16 (slice barray (Some (-4)) (Some (-2)))) as [q|e] eqn:Eq;
    [|discriminate].
  unfold bind at 1, modify at 1.
  destruct (int16 (slice barray (Some (-2)) None)) as [l|e] eqn:El;
    [|discriminate].
  unfold modify.
  rewrite for_scan_data_other
    by (intros e He; apply Hother, in_or_app; now right).
  intros [= <-]. cbn.
  apply (int16_slice_bounds barray (-6) (Some (-4))) in Eb; [|now left|lia].
  apply (int16_slice_bounds barray (-4) (Some (-2))) in Eq; [|now left|lia].
  apply (int16_slice_bounds barray (-2) None) in El; [|now right|lia].
  repeat split; lia.
Qed.

Lemma decoded_readings_bounded_witness :
  exists driver',
    handleDiscovery (frame_of "0d00ff-f64") true true (sample_curtain false)
    = (Ok tt, driver')
    /\ get_battery_percent driver' = 255
    /\ get_position driver' = -15
    /\ -15 <= get_light_level driver' <= 255.
Proof.
  eexists. split; [reflexivity|]. split; [reflexivity|].
  split; [reflexivity|].
  exact (proj2 (proj2
    (decoded_readings_bounded (sample_curtain false) _
       (frame_of "0d00ff-f64") true true
       [(1, "Flags"%string, "06"%string)] []
       "16b Service Data" "0d00ff-f64" eq_refl eq_refl
       ltac:(intros e [<-|[]]; discriminate) eq_refl))).
Defined.

(** ** The length of the encoded password *)

Lemma hex_digits_length (u : bool) (k : nat) :
  forall n, 0 <= n < 16 ^ Z.of_nat (S k) ->
            (1 <= String.length (hex_digits u n) <= S k)%nat.
Proof.
  induction k as [|k IH]; intros n Hn; rewrite hex_digits_eq by lia.
  - change (16 ^ Z.of_nat 1) with 16 in Hn.
    destruct (Z.ltb_spec n 16); [cbn; lia | lia].
  - destruct (Z.ltb_spec n 16); [cbn; lia|].
    rewrite string_length_app. cbn [String.length].
    assert (Hq : 0 <= n / 16 < 16 ^ Z.of_nat (S k)).
    { split; [apply Z.div_pos; lia|].
      apply Z.div_lt_upper_bound; [lia|].
      rewrite (Nat2Z.inj_succ (S k)), Z.pow_succ_r in Hn by lia. lia. }
    specialize (IH _ Hq). lia.
Qed.

(** X14.  Every encoded password the constructor stores has between one
    and eight hexadecimal digits, so a command sent with a password has
    between 7 and 14 characters, whatever the key. *)
Theorem password_encoded_length
        (mac : string) (retry_count : Z) (password : option string)
        (interface : option Z) (d : SwitchbotDevice) (enc : string) :
  SwitchbotDevice__init__ mac retry_count password interface = Ok d ->
  _password_encoded d = Some enc ->
  (1 <= String.length enc <= 8)%nat
  /\ forall key,
       String.length (_commandkey d key) = (6 + String.length enc)%nat.
Proof.
  intros Hinit Henc. split.
  - unfold SwitchbotDevice__init__ in Hinit.
    destruct password as [p|]; [|injection Hinit as <-; discriminate].
    destruct (String.eqb p ""); [injection Hinit as <-; discriminate|].
    destruct (encode_ascii p) as [data|e]; [|discriminate].
    injection Hinit as <-. cbn in Henc. injection Henc as <-.
    rewrite mask32_crc32.
    pose proof (crc32_below data) as Hb.
    rewrite format_x_nonneg by lia.
    apply hex_digits_length. change (16 ^ Z.of_nat 8) with (2 ^ 32). exact Hb.
  - intros key. unfold _commandkey. rewrite Henc.
    rewrite !string_length_app.
    destruct (String.eqb key ON_KEY); [cbn; lia|].
    destruct (String.eqb key OFF_KEY); cbn; lia.
Qed.

Lemma password_encoded_length_witness :
  String.length (_commandkey sample_locked_device ON_KEY) = 14%nat.
Proof.
  exact (proj2 (password_encoded_length "e7:4d:36:cf:9e:7a" 3
                  (Some "123456789"%string) None sample_locked_device
                  "cbf43926" eq_refl eq_refl) ON_KEY).
Defined.

(** ** Curtain commands under a password *)

Lemma sendcommand_rec_same_command (T : transport) (k1 k2 : string)
      (pw : option string) (gas : nat) :
  (forall self, _password_encoded self = pw ->
                _commandkey self k1 = _commandkey self k2) ->
  forall retry s,
    _password_encoded (self_ s) = pw ->
    _sendcommand_rec T gas k1 retry s = _sendcommand_rec T gas k2 retry s.
Proof.
  intros Hk. induction gas as [|g IH]; intros retry s Hpw;
    cbn [_sendcommand_rec]; unfold _sendcommand_body, bind, get;
    rewrite (Hk _ Hpw);
    destruct (send_once_summary T (_commandkey (self_ s) k2) s)
      as (r1 & s1 & new1 & E & _ & Hs & _); rewrite E;
    destruct r1 as [[|]|e]; try reflexivity.
  destruct (retry <? 1); [reflexivity|].
  unfold sleep, emit, modify. cbv beta iota.
  apply IH. cbn [self_]. rewrite Hs. exact Hpw.
Qed.

Lemma curtain_send_same (T : transport) (k1 k2 : string) (c1 c2 : CSt) :
  (forall self, _password_encoded self = _password_encoded (base (cself c1)) ->
                _commandkey self k1 = _commandkey self k2) ->
  base (cself c1) = base (cself c2) -> cenv c1 = cenv c2 ->
  let send k c :=
    inherited (s <- get ;; _sendcommand T k (_retry_count (self_ s))) c in
  fst (send k1 c1) = fst (send k2 c2)
  /\ cenv (snd (send k1 c1)) = cenv (snd (send k2 c2))
  /\ base (cself (snd (send k1 c1))) = base (cself (snd (send k2 c2))).
Proof.
  intros Hk Hb He. cbv zeta. unfold inherited, bind, get. cbn [self_].
  rewrite <- Hb, <- He. unfold _sendcommand.
  rewrite (sendcommand_rec_same_command T k1 k2 _ _ Hk) by reflexivity.
  destruct (_sendcommand_rec T _ k2 _ _) as [r s']. now cbn.
Qed.

(** X15.  On a curtain with a password the position is never sent: [open],
    [close], [stop] and [set_position p] for every [p] are encoded as the
    same command, so on the same peripheral they return the same outcome
    and leave the same trace, byte for byte; they differ in the cached
    position only. *)
Theorem password_curtain_commands_coincide
        (T : transport) (st : CSt) (pw : string) (p : Z) :
  _password_encoded (base (cself st)) = Some pw ->
  forall m, In m [close T; stop T; set_position T p] ->
    fst (m st) = fst (open T st)
    /\ cenv (snd (m st)) = cenv (snd (open T st))
    /\ base (cself (snd (m st))) = base (cself (snd (open T st))).
Proof.
  intros Hpw m Hm.
  assert (Hk : forall k1 k2,
             String.eqb k1 ON_KEY = false -> String.eqb k1 OFF_KEY = false ->
             String.eqb k2 ON_KEY = false -> String.eqb k2 OFF_KEY = false ->
             forall self,
               _password_encoded self = Some pw ->
               _commandkey self k1 = _commandkey self k2).
  { intros k1 k2 H1 H2 H3 H4 self Hs. unfold _commandkey.
    now rewrite Hs, H1, H2, H3, H4. }
  destruct Hm as [<-|[<-|[<-|[]]]];
    unfold open, close, stop, set_position, bind, get, set_pos, modify;
    cbv beta iota;
    apply curtain_send_same; try reflexivity;
    cbn [cself base with_pos]; rewrite Hpw; now apply Hk.
Qed.

Lemma password_curtain_commands_coincide_witness :
  let st := {| cself := sample_locked_curtain; cenv := fresh_world |} in
  cenv (snd (set_position reachable 30 st)) = cenv (snd (open reachable st))
  /\ cenv (snd (close reachable st)) = cenv (snd (open reachable st)).
Proof.
  cbv zeta. split.
  - refine (proj1 (proj2 (password_curtain_commands_coincide reachable
                            {| cself := sample_locked_curtain;
                               cenv := fresh_world |}
                            "cbf43926" 30 eq_refl _ _))).
    right. right. left. reflexivity.
  - refine (proj1 (proj2 (password_curtain_commands_coincide reachable
                            {| cself := sample_locked_curtain;
                               cenv := fresh_world |}
                            "cbf43926" 30 eq_refl _ _))).
    left. reflexivity.
Defined.

(** ** The position [set_position] sends *)








